(** * The OCI repository watcher of kubebb/core, pkg/repository/oci_watcher.go

    A shallow embedding of [OCIWatcher.Start] and [OCIWatcher.Poll] together
    with the loop driver they are handed to, and the properties of the
    poll cycle: what is sent to the cluster store, when the repository
    conditions are written, and when polls are scheduled.

    Conventions.
    - Go [int], [time.Duration] and [metav1.Time] are integers ([Z]); a
      duration counts nanoseconds, a time is an instant on the same axis.
    - A Go slice is a [slice.t]: either the nil slice or a backing list.
    - A Go [map[string]V] is a [gmap string V]; the order in which a
      [for range] visits it is chosen by the runtime.
    - Calls into other packages are outcomes supplied by an [Env]; each call
      is recorded, in program order, in the [trace] of the [World]. *)

From Stdlib Require Import ZArith String.
From stdpp Require Import base option list gmap strings.

Local Open Scope string_scope.

(** ** Go slices *)

Module slice.

Inductive t (A : Type) : Type :=
| Nil
| Mk (l : list A).
Arguments Nil {A}.
Arguments Mk {A} l.

Section ops.
Context {A : Type}.

Definition elems (s : t A) : list A :=
  match s with
  | Nil => []
  | Mk l => l
  end.

Definition is_nil (s : t A) : bool :=
  match s with
  | Nil => true
  | Mk _ => false
  end.

(** [len(s)] *)
Definition len (s : t A) : Z := Z.of_nat (length (elems s)).

(** [make([]T, 0)]: empty, and not nil. *)
Definition make0 : t A := Mk [].

(** [append(s, x)]: the result always has a backing array. *)
Definition append (s : t A) (x : A) : t A := Mk (elems s ++ [x]).

(** [s[i]]; [None] is the run-time panic of an index out of range. *)
Definition index (s : t A) (i : Z) : option A :=
  if decide (0 ≤ i)%Z then elems s !! Z.to_nat i else None.

(** [s[:r]]; [None] is the run-time panic of bounds out of range (the
    capacity of a slice is taken to be its length). *)
Definition upto (s : t A) (r : Z) : option (t A) :=
  if decide (0 ≤ r ≤ len s)%Z then
    Some (match s with
          | Nil => Nil
          | Mk l => Mk (take (Z.to_nat r) l)
          end)
  else None.

End ops.
End slice.

(** ** Data of the collaborating packages *)

Abbreviation Time := Z (only parsing).
Abbreviation Duration := Z (only parsing).

(** k8s.io/apimachinery/pkg/apis/meta/v1: the reason carried by an API error.
    [errors.IsAlreadyExists] looks at nothing else. *)
Inductive StatusReason : Type :=
| StatusReasonUnknown
| StatusReasonAlreadyExists
| StatusReasonNotFound
| StatusReasonConflict
| StatusReasonForbidden
| StatusReasonTimeout.

Module error.
Record t : Type := mk { Reason : StatusReason; Message : string }.
End error.

Module errors.
Definition IsAlreadyExists (err : error.t) : bool :=
  match error.Reason err with
  | StatusReasonAlreadyExists => true
  | _ => false
  end.
End errors.

(** helm.sh/helm/v3: chart metadata as the repository index has it. *)
Module chart.

Module Maintainer.
Record t : Type := mk { Name : string; Email : string; URL : string }.
End Maintainer.

End chart.

Module repo.

Module ChartVersion.
Record t : Type := mk {
  Name : string;
  Home : string;
  Sources : slice.t string;
  Version : string;
  Description : string;
  Keywords : slice.t string;
  Maintainers : slice.t chart.Maintainer.t;
  Icon : string;
  AppVersion : string;
  Deprecated : bool;
  Annotations : gmap string string;
  Created : Time;
  Digest : string
}.
End ChartVersion.

(** Only the fields [Start] writes are named; the others go along in
    [Rest]. *)
Module Entry.
Record t : Type := mk { Name : string; URL : string; Rest : list (string * string) }.
End Entry.

End repo.

Module rest.
Module Config.
Record t : Type := mk { Host : string; CAFile : string; BearerToken : string }.
End Config.
End rest.

Module genericclioptions.
Module ConfigFlags.
Record t : Type := mk {
  APIServer : string;
  CAFile : string;
  BearerToken : string;
  Namespace : string
}.
End ConfigFlags.
End genericclioptions.

Module v1.
Module ObjectReference.
Record t : Type := mk {
  Kind : string;
  Namespace : string;
  Name : string;
  UID : string;
  APIVersion : string
}.
End ObjectReference.
End v1.

Module metav1.

Module OwnerReference.
Record t : Type := mk {
  APIVersion : string;
  Kind : string;
  Name : string;
  UID : string
}.
End OwnerReference.

Module ObjectMeta.
Record t : Type := mk {
  Name : string;
  Namespace : string;
  Labels : gmap string string;
  OwnerReferences : slice.t OwnerReference.t
}.
End ObjectMeta.

End metav1.

(** ** Data of github.com/kubebb/core/api/v1alpha1 *)

Module v1alpha1.

Module Maintainer.
Record t : Type := mk { Name : string; Email : string; URL : string }.
End Maintainer.

Module ComponentVersion.
Record t : Type := mk {
  Annotations : gmap string string;
  Version : string;
  AppVersion : string;
  UpdatedAt : Time;
  CreatedAt : Time;
  Digest : string;
  Deprecated : bool
}.
End ComponentVersion.

Module ComponentStatus.
Record t : Type := mk {
  RepositoryRef : option v1.ObjectReference.t;
  Name : string;
  DisplayName : string;
  Versions : slice.t ComponentVersion.t;
  Description : string;
  Maintainers : slice.t Maintainer.t;
  Home : string;
  Icon : string;
  Keywords : slice.t string;
  Sources : slice.t string
}.
End ComponentStatus.

Module Component.
Record t : Type := mk {
  ObjectMeta : metav1.ObjectMeta.t;
  Status : ComponentStatus.t
}.
Definition GetName (item : t) : string := metav1.ObjectMeta.Name (ObjectMeta item).
Definition GetNamespace (item : t) : string :=
  metav1.ObjectMeta.Namespace (ObjectMeta item).

(** Assignments to the fields of [item.Status] and [item.ObjectMeta]. *)
Module CS := ComponentStatus.
Definition upd_Status (f : CS.t → CS.t) (item : t) : t :=
  mk (ObjectMeta item) (f (Status item)).
Definition set_Versions (vs : slice.t ComponentVersion.t) : t → t :=
  upd_Status (λ s,
    CS.mk (CS.RepositoryRef s) (CS.Name s) (CS.DisplayName s)
      vs (CS.Description s) (CS.Maintainers s) (CS.Home s)
      (CS.Icon s) (CS.Keywords s) (CS.Sources s)).
Definition set_Maintainers (ms : slice.t Maintainer.t) : t → t :=
  upd_Status (λ s,
    CS.mk (CS.RepositoryRef s) (CS.Name s) (CS.DisplayName s)
      (CS.Versions s) (CS.Description s) ms (CS.Home s)
      (CS.Icon s) (CS.Keywords s) (CS.Sources s)).
Definition set_Description (d : string) : t → t :=
  upd_Status (λ s,
    CS.mk (CS.RepositoryRef s) (CS.Name s) (CS.DisplayName s)
      (CS.Versions s) d (CS.Maintainers s) (CS.Home s)
      (CS.Icon s) (CS.Keywords s) (CS.Sources s)).
Definition set_Home (h : string) : t → t :=
  upd_Status (λ s,
    CS.mk (CS.RepositoryRef s) (CS.Name s) (CS.DisplayName s)
      (CS.Versions s) (CS.Description s) (CS.Maintainers s) h
      (CS.Icon s) (CS.Keywords s) (CS.Sources s)).
Definition set_Icon (i : string) : t → t :=
  upd_Status (λ s,
    CS.mk (CS.RepositoryRef s) (CS.Name s) (CS.DisplayName s)
      (CS.Versions s) (CS.Description s) (CS.Maintainers s) (CS.Home s)
      i (CS.Keywords s) (CS.Sources s)).
Definition set_Keywords (k : slice.t string) : t → t :=
  upd_Status (λ s,
    CS.mk (CS.RepositoryRef s) (CS.Name s) (CS.DisplayName s)
      (CS.Versions s) (CS.Description s) (CS.Maintainers s) (CS.Home s)
      (CS.Icon s) k (CS.Sources s)).
Definition set_Sources (src : slice.t string) : t → t :=
  upd_Status (λ s,
    CS.mk (CS.RepositoryRef s) (CS.Name s) (CS.DisplayName s)
      (CS.Versions s) (CS.Description s) (CS.Maintainers s) (CS.Home s)
      (CS.Icon s) (CS.Keywords s) src).
Definition set_OwnerReferences (rs : slice.t metav1.OwnerReference.t) (item : t) : t :=
  mk (metav1.ObjectMeta.mk (metav1.ObjectMeta.Name (ObjectMeta item))
        (metav1.ObjectMeta.Namespace (ObjectMeta item))
        (metav1.ObjectMeta.Labels (ObjectMeta item)) rs)
     (Status item).
End Component.

Module RepositorySpec.
Record t : Type := mk { URL : string; KeywordLenLimit : Z }.
End RepositorySpec.

Module Repository.
Record t : Type := mk {
  Kind : string;
  APIVersion : string;
  Name : string;
  Namespace : string;
  UID : string;
  Spec : RepositorySpec.t
}.
Definition GetName (r : t) : string := Name r.
Definition GetNamespace (r : t) : string := Namespace r.
Definition GetUID (r : t) : string := UID r.
End Repository.

(** The argument of [Match]: the entry's name and all its versions. *)
Module Filter.
Record t : Type := mk {
  Name : string;
  Versions : slice.t repo.ChartVersion.t
}.
End Filter.

End v1alpha1.

(** ** The world the watcher runs in *)

(** What a call that may fail hands back: Go's [(value, err)] pair. *)
Inductive result (A : Type) : Type :=
| Ok (a : A)
| Err (err : error.t).
Arguments Ok {A} a.
Arguments Err {A} err.

(** How a Go function ends: it returns, or a run-time panic unwinds it. *)
Inductive Outcome (A : Type) : Type :=
| Returned (a : A)
| Panicked.
Arguments Returned {A} a.
Arguments Panicked {A}.

Section Watcher.

(** Types of this repository that are declared outside the watcher:
    [v1alpha1.FilterCond] and [v1alpha1.Condition]. *)
Context {FilterCond Condition : Type}.

(** Everything the watcher does to the outside, in program order. *)
Inductive Event : Type :=
| LogInfo (msg : string)
| LogError (err : error.t) (msg : string)
| CallStart (repoName : string)
| CallRepoAdd (entry : repo.Entry.t) (timeout : Duration)
| CallRepoRemove (name : string)
| CallRepoUpdate (name : string) (timeout : Duration)
| CallGetConfig
| CallGetOCIRepoCharts (getter : genericclioptions.ConfigFlags.t) (ns : string)
| CallCreate (item : v1alpha1.Component.t)
| CallUpdateRepository (readyCond syncCond : Condition)
| GoUntil (period : Duration)
| CallCancel.

(** The collaborators: what each call answers. None of them is code of the
    watcher; every theorem below holds for whatever they answer, under the
    hypotheses it names. *)
Record Env : Type := {
  (** the k-th reading of the clock by [metav1.Now()] *)
  clock : nat → Time;
  (** the package-level [Start] helper, which prepares the repository entry *)
  pkg_Start : string → result repo.Entry.t;
  helm_RepoAdd : repo.Entry.t → Duration → option error.t;
  helm_RepoRemove : string → option error.t;
  helm_RepoUpdate : string → Duration → option error.t;
  ctrl_GetConfig : result rest.Config.t;
  helm_GetOCIRepoCharts :
    genericclioptions.ConfigFlags.t → string → v1alpha1.Repository.t →
    result (repo.ChartVersion.t * slice.t repo.ChartVersion.t);
  utils_GetOCIEntryName : string → string;
  v1alpha1_Match :
    gmap string FilterCond → v1alpha1.Filter.t → slice.t Z * bool;
  (** the order in which [for range] visits a map *)
  range_order :
    gmap string v1alpha1.Maintainer.t → list (string * v1alpha1.Maintainer.t);
  (** the owner reference the scheme yields for the repository, if any *)
  scheme_OwnerReference : v1alpha1.Repository.t → result metav1.OwnerReference.t;
  client_Create : v1alpha1.Component.t → option error.t;
  getReadyCond : Time → Condition;
  getSyncCond : Time → Condition;
  ComponentRepositoryLabel : string;
  DisplayNameAnnotationKey : string
}.

(** A [for range] over a map visits every key exactly once, in some order. *)
Definition range_visits_all (E : Env) : Prop :=
  ∀ m, range_order E m ≡ₚ map_to_list m.

Record World : Type := mkWorld {
  reads : nat;          (* readings of the clock so far *)
  trace : list Event    (* oldest first *)
}.

Definition init : World := mkWorld 0 [].

(** ** Computations over the world *)

Definition M (A : Type) : Type := World → Outcome A * World.

Definition ret {A} (a : A) : M A := λ w, (Returned a, w).

Definition bind {A B} (m : M A) (k : A → M B) : M B :=
  λ w, match m w with
       | (Returned a, w') => k a w'
       | (Panicked, w') => (Panicked, w')
       end.

Definition panic {A} : M A := λ w, (Panicked, w).

Definition emit (e : Event) : M unit :=
  λ w, (Returned tt, mkWorld (reads w) (trace w ++ [e])).

(** A call: recorded, then answered. *)
Definition call {A} (e : Event) (answer : A) : M A :=
  bind (emit e) (λ _, ret answer).

Definition orPanic {A} (o : option A) : M A :=
  match o with
  | Some a => ret a
  | None => panic
  end.

End Watcher.

Arguments Event : clear implicits.
Arguments Env : clear implicits.
Arguments World : clear implicits.
Arguments M : clear implicits.

Declare Scope go_scope.
Delimit Scope go_scope with go.
Notation "x <- m ;; k" := (bind m (λ x, k))
  (at level 100, m at next level, right associativity) : go_scope.
Notation "m ;; k" := (bind m (λ _, k))
  (at level 100, right associativity) : go_scope.

(** ** The watcher *)

Section OCIWatcher.

Context {FilterCond Condition : Type}.

Abbreviation Env' := (Env FilterCond Condition) (only parsing).
Abbreviation M' := (M Condition) (only parsing).

(** The fields of [OCIWatcher] that carry data. The client, the context, the
    logger, the scheme and the cancel function are handles on collaborators;
    what they do is in the [Env]. *)
Record OCIWatcher : Type := {
  instance : v1alpha1.Repository.t;
  duration : Duration;
  repoName : string;
  filterMap : gmap string FilterCond
}.

(** [NewOCIWatcher]: the watcher for a repository. The name it goes by is
    [instance.NamespacedName()], a method of the repository type declared
    outside this file and taken here as the parameter [NamespacedName];
    the handles (client, context, logger, cancel function, scheme) are
    stored as given. *)
Definition NewOCIWatcher (NamespacedName : v1alpha1.Repository.t → string)
    (inst : v1alpha1.Repository.t) (d : Duration) (fm : gmap string FilterCond)
  : OCIWatcher :=
  {| instance := inst;
     duration := d;
     repoName := NamespacedName inst;
     filterMap := fm |}.

Variable E : Env'.

Local Open Scope go_scope.

Definition logger_Info (msg : string) : M' unit := emit (LogInfo msg).
Definition logger_Error (err : error.t) (msg : string) : M' unit :=
  emit (LogError err msg).

(** [metav1.Now()]: one more reading of the clock. *)
Definition metav1_Now : M' Time :=
  λ w, (Returned (clock E (reads w)), mkWorld (S (reads w)) (trace w)).

(** [Start], as far as the launch of the loop: the [go] statement is the
    event [GoUntil]; what the loop then does is [Until] below. *)
Definition Start (c : OCIWatcher) : M' (option error.t) :=
  r <- call (CallStart (repoName c)) (pkg_Start E (repoName c));;
  match r with
  | Err err => ret (Some err)
  | Ok entry =>
    let entry := repo.Entry.mk (repoName c)
                   (v1alpha1.RepositorySpec.URL (v1alpha1.Repository.Spec (instance c)))
                   (repo.Entry.Rest entry) in
    let timeout := (duration c `quot` 2)%Z in
    e <- call (CallRepoAdd entry timeout) (helm_RepoAdd E entry timeout);;
    match e with
    | Some err =>
      logger_Error err "Failed to add repository";;
      ret (Some err)
    | None =>
      emit (GoUntil (duration c));;
      ret None
    end
  end.

Definition Stop (c : OCIWatcher) : M' unit :=
  logger_Info "Delete Or Update Repository, stop watcher";;
  e <- call (CallRepoRemove (repoName c)) (helm_RepoRemove E (repoName c));;
  match e with
  | Some err => logger_Error err "Failed to remove repository"
  | None => ret tt
  end;;
  emit CallCancel.

(** Lines 159-168: the map from a maintainer's name to the first maintainer
    of that name. *)
Definition collectMaintainers (ms : list chart.Maintainer.t)
  : gmap string v1alpha1.Maintainer.t :=
  fold_left
    (λ (maintainers : gmap string v1alpha1.Maintainer.t) (m : chart.Maintainer.t),
       match maintainers !! chart.Maintainer.Name m with
       | Some _ => maintainers
       | None =>
         <[chart.Maintainer.Name m :=
             v1alpha1.Maintainer.mk (chart.Maintainer.Name m)
               (chart.Maintainer.Email m) (chart.Maintainer.URL m)]> maintainers
       end)
    ms ∅.

(** Lines 172-183: one version record for each index the filter kept. *)
Fixpoint appendVersions (all : slice.t repo.ChartVersion.t) (indices : list Z)
    (versions : slice.t v1alpha1.ComponentVersion.t)
  : M' (slice.t v1alpha1.ComponentVersion.t) :=
  match indices with
  | [] => ret versions
  | idx :: indices' =>
    version <- orPanic (slice.index all idx);;
    updatedAt <- metav1_Now;;
    appendVersions all indices'
      (slice.append versions
         (v1alpha1.ComponentVersion.mk
            (repo.ChartVersion.Annotations version)
            (repo.ChartVersion.Version version)
            (repo.ChartVersion.AppVersion version)
            updatedAt
            (repo.ChartVersion.Created version)
            (repo.ChartVersion.Digest version)
            (repo.ChartVersion.Deprecated version)))
  end.

(** Lines 185-188: the keyword limit. *)
Definition limitKeywords (keywords : slice.t string) (r : Z) : M' (slice.t string) :=
  if decide (r > 0 ∧ slice.len keywords > r)%Z
  then orPanic (slice.upto keywords r)
  else ret keywords.

(** Lines 195-197: the maintainers, in the order the map is visited. *)
Definition appendMaintainers (maintainers : gmap string v1alpha1.Maintainer.t)
    (ms : slice.t v1alpha1.Maintainer.t) : slice.t v1alpha1.Maintainer.t :=
  fold_left (λ acc km, slice.append acc km.2) (range_order E maintainers) ms.

(** Lines 136-157: the component as first built. *)
Definition skeleton (c : OCIWatcher) (entryName : string)
    (latest : repo.ChartVersion.t) : v1alpha1.Component.t :=
  let inst := instance c in
  v1alpha1.Component.mk
    (metav1.ObjectMeta.mk
       (v1alpha1.Repository.GetName inst +:+ "." +:+ entryName)
       (v1alpha1.Repository.GetNamespace inst)
       {[ ComponentRepositoryLabel E := v1alpha1.Repository.GetName inst ]}
       slice.Nil)
    (v1alpha1.ComponentStatus.mk
       (Some (v1.ObjectReference.mk
                (v1alpha1.Repository.Kind inst)
                (v1alpha1.Repository.GetNamespace inst)
                (v1alpha1.Repository.GetName inst)
                (v1alpha1.Repository.GetUID inst)
                (v1alpha1.Repository.APIVersion inst)))
       entryName
       (default "" (repo.ChartVersion.Annotations latest !! DisplayNameAnnotationKey E))
       slice.make0
       ""
       slice.make0
       "" "" slice.Nil slice.Nil).

(** [controllerutil.SetOwnerReference], its error dropped: the reference is
    added when the scheme knows the owner, and nothing happens otherwise. *)
Definition SetOwnerReference (owner : v1alpha1.Repository.t)
    (item : v1alpha1.Component.t) : v1alpha1.Component.t :=
  match scheme_OwnerReference E owner with
  | Ok ref =>
    v1alpha1.Component.set_OwnerReferences
      (slice.append (metav1.ObjectMeta.OwnerReferences (v1alpha1.Component.ObjectMeta item)) ref)
      item
  | Err _ => item
  end.

(** Lines 136-199, after a successful fetch: everything between the fetch
    and the create. *)
Definition buildComponent (c : OCIWatcher) (entryName : string)
    (latest : repo.ChartVersion.t) (all : slice.t repo.ChartVersion.t)
  : M' v1alpha1.Component.t :=
  let item := skeleton c entryName latest in
  let maintainers :=
    collectMaintainers (slice.elems (repo.ChartVersion.Maintainers latest)) in
  let item := v1alpha1.Component.set_Versions slice.make0 item in
  let '(filterVersionIndices, keep) :=
    v1alpha1_Match E (filterMap c) (v1alpha1.Filter.mk entryName all) in
  versions <-
    (if keep
     then appendVersions all (slice.elems filterVersionIndices)
            (v1alpha1.ComponentStatus.Versions (v1alpha1.Component.Status item))
     else ret (v1alpha1.ComponentStatus.Versions (v1alpha1.Component.Status item)));;
  let item := v1alpha1.Component.set_Versions versions item in
  keywords <-
    limitKeywords (repo.ChartVersion.Keywords latest)
      (v1alpha1.RepositorySpec.KeywordLenLimit (v1alpha1.Repository.Spec (instance c)));;
  let item := v1alpha1.Component.set_Description (repo.ChartVersion.Description latest) item in
  let item := v1alpha1.Component.set_Home (repo.ChartVersion.Home latest) item in
  let item := v1alpha1.Component.set_Icon (repo.ChartVersion.Icon latest) item in
  let item := v1alpha1.Component.set_Keywords keywords item in
  let item := v1alpha1.Component.set_Sources (repo.ChartVersion.Sources latest) item in
  let item :=
    v1alpha1.Component.set_Maintainers
      (appendMaintainers maintainers
         (v1alpha1.ComponentStatus.Maintainers (v1alpha1.Component.Status item)))
      item in
  ret (SetOwnerReference (instance c) item).

(** [Poll], one cycle. *)
Definition Poll (c : OCIWatcher) : M' unit :=
  logger_Info "OCI poll";;
  now <- metav1_Now;;
  let readyCond := getReadyCond E now in
  let syncCond := getSyncCond E now in
  let timeout := (duration c `quot` 2)%Z in
  e <- call (CallRepoUpdate (repoName c) timeout) (helm_RepoUpdate E (repoName c) timeout);;
  match e with
  | Some err => logger_Error err "Failed to update repository"
  | None =>
    let entryName :=
      utils_GetOCIEntryName E
        (v1alpha1.RepositorySpec.URL (v1alpha1.Repository.Spec (instance c))) in
    r <- call CallGetConfig (ctrl_GetConfig E);;
    match r with
    | Err err => logger_Error err "Cannot get config"
    | Ok cfg =>
      let ns := v1alpha1.Repository.GetNamespace (instance c) in
      let getter :=
        genericclioptions.ConfigFlags.mk (rest.Config.Host cfg)
          (rest.Config.CAFile cfg) (rest.Config.BearerToken cfg) ns in
      r <- call (CallGetOCIRepoCharts getter ns)
             (helm_GetOCIRepoCharts E getter ns (instance c));;
      match r with
      | Err err => logger_Error err "Cannot get oci repo charts"
      | Ok (latest, all) =>
        item <- buildComponent c entryName latest all;;
        logger_Info "create component";;
        e <- call (CallCreate item) (client_Create E item);;
        match e with
        | Some err =>
          if negb (errors.IsAlreadyExists err)
          then logger_Error err "failed to create component"
          else logger_Info "Successfully created component"
        | None => logger_Info "Successfully created component"
        end;;
        emit (CallUpdateRepository readyCond syncCond)
      end
    end
  end.

End OCIWatcher.

(** ** The loop driver *)

(** When things happen around the loop, on the axis of [Time]: how long
    after the [go] statement the new goroutine runs its first instruction,
    how long the n-th call of the polled function takes, and the instant, if
    any, at which the stop channel ([ctx.Done()]) is closed. *)
Record Schedule : Type := {
  spawnDelay : Duration;
  pollCost : nat → Duration;
  stopAt : option Time
}.

Definition stopped (sch : Schedule) (t : Time) : bool :=
  match stopAt sch with
  | Some s => (s <=? t)%Z
  | None => false
  end.

Section Loop.

Context {FilterCond Condition : Type}.

(** [wait.Until(f, period, stopCh)] of k8s.io/apimachinery/pkg/util/wait:
    [JitterUntil] with jitter factor 0 and [sliding = true], that is
    [BackoffUntil] with a timer of exactly [period] armed after [f]
    returns. One iteration: leave if the stop channel is closed; call [f];
    arm the timer; wait for the timer or the stop channel, whichever comes
    first. A panic in [f] is re-raised by [HandleCrash] and ends the loop.

    The result lists the calls of [f] made within [fuel] iterations: the
    instant each began and the world it left. [n] counts the calls made
    before, [t] is the instant the iteration begins. *)
Fixpoint BackoffUntil (fuel : nat) (f : nat → Outcome unit * World Condition)
    (period : Duration) (sch : Schedule) (n : nat) (t : Time)
  : list (Time * World Condition) :=
  match fuel with
  | O => []
  | S fuel' =>
    if stopped sch t then []
    else
      let '(o, w) := f n in
      (t, w) ::
      match o with
      | Panicked => []
      | Returned _ =>
        let fire := (t + pollCost sch n + period)%Z in
        if stopped sch fire then []
        else BackoffUntil fuel' f period sch (S n) fire
      end
  end.

Definition Until := BackoffUntil.

(** The period of the loop a trace launched, if it launched one. *)
Definition launched (tr : list (Event Condition)) : option Duration :=
  head (omap (λ e, match e with GoUntil p => Some p | _ => None end) tr).

(** A watcher's life: [Start] returns at the instant [t0]; if it launched
    the loop, the loop polls, the n-th poll against the collaborators
    [envs n]. The result: what [Start] returned, what it did, and the polls
    made within [fuel] iterations of the loop. *)
Definition lifecycle (fuel : nat) (sch : Schedule)
    (E0 : Env FilterCond Condition) (envs : nat → Env FilterCond Condition)
    (c : OCIWatcher) (t0 : Time)
  : Outcome (option error.t) * list (Event Condition) * list (Time * World Condition) :=
  let '(r, w) := Start E0 c init in
  (r, trace w,
   match launched (trace w) with
   | Some period =>
     Until fuel (λ n, Poll (envs n) c init) period sch 0 (t0 + spawnDelay sch)%Z
   | None => []
   end).

(** The components a trace sent to the cluster store, and the condition
    updates it made. *)
Definition created (tr : list (Event Condition)) : list v1alpha1.Component.t :=
  omap (λ e, match e with CallCreate item => Some item | _ => None end) tr.

Definition conditionUpdates (tr : list (Event Condition)) : list (Condition * Condition) :=
  omap (λ e, match e with CallUpdateRepository r s => Some (r, s) | _ => None end) tr.

End Loop.

(** ** A concrete repository, for running the definitions *)

Module demo.

Definition Cond : Type := string * Time.

Definition maintainer (n e : string) : chart.Maintainer.t :=
  chart.Maintainer.mk n e ("https://example.org/" +:+ n).

Definition version (v : string) (created : Time) : repo.ChartVersion.t :=
  repo.ChartVersion.mk "nginx" "https://nginx.org"
    (slice.Mk ["https://github.com/nginx"]) v "a web server"
    (slice.Mk ["web"; "http"; "proxy"; "server"; "nginx"])
    (slice.Mk [maintainer "a" "a@1"; maintainer "a" "a@2"; maintainer "b" "b@1"])
    "icon.png" ("app-" +:+ v) false ∅ created ("sha256:" +:+ v).

Definition all : slice.t repo.ChartVersion.t :=
  slice.Mk [version "1.0.0" 100; version "1.1.0" 200; version "2.0.0" 300].

Definition latest : repo.ChartVersion.t := version "2.0.0" 300.

Definition repository (limit : Z) : v1alpha1.Repository.t :=
  v1alpha1.Repository.mk "Repository" "core.kubebb.k8s.com.cn/v1alpha1"
    "charts" "kubebb-system" "uid-1"
    (v1alpha1.RepositorySpec.mk "oci://registry.example.org/charts/nginx" limit).

Definition watcher (limit : Z) : @OCIWatcher unit :=
  {| instance := repository limit;
     duration := 1000;
     repoName := "kubebb-system.charts";
     filterMap := ∅ |}.

Definition refused : error.t := error.mk StatusReasonUnknown "connection refused".
Definition exists_already : error.t := error.mk StatusReasonAlreadyExists "already exists".
Definition forbidden : error.t := error.mk StatusReasonForbidden "forbidden".

(** Collaborators that all succeed; the filter keeps [indices] if [keep]. *)
Definition env (indices : slice.t Z) (keep : bool) : Env unit Cond :=
  {| clock := λ k, (5000 + Z.of_nat k)%Z;
     pkg_Start := λ n, Ok (repo.Entry.mk "" "" []);
     helm_RepoAdd := λ _ _, None;
     helm_RepoRemove := λ _, None;
     helm_RepoUpdate := λ _ _, None;
     ctrl_GetConfig := Ok (rest.Config.mk "https://10.0.0.1:6443" "/ca.crt" "token");
     helm_GetOCIRepoCharts := λ _ _ _, Ok (latest, all);
     utils_GetOCIEntryName := λ _, "nginx";
     v1alpha1_Match := λ _ _, (indices, keep);
     range_order := map_to_list;
     scheme_OwnerReference := λ r,
       Ok (metav1.OwnerReference.mk (v1alpha1.Repository.APIVersion r)
             (v1alpha1.Repository.Kind r) (v1alpha1.Repository.Name r)
             (v1alpha1.Repository.UID r));
     client_Create := λ _, None;
     getReadyCond := λ now, ("Ready", now);
     getSyncCond := λ now, ("Synced", now);
     ComponentRepositoryLabel := "kubebb.component.repository";
     DisplayNameAnnotationKey := "core.kubebb.k8s.com.cn/displayname" |}.

Definition with_RepoAdd (e : option error.t) (E : Env unit Cond) : Env unit Cond :=
  {| clock := clock E; pkg_Start := pkg_Start E;
     helm_RepoAdd := λ _ _, e;
     helm_RepoRemove := helm_RepoRemove E; helm_RepoUpdate := helm_RepoUpdate E;
     ctrl_GetConfig := ctrl_GetConfig E;
     helm_GetOCIRepoCharts := helm_GetOCIRepoCharts E;
     utils_GetOCIEntryName := utils_GetOCIEntryName E;
     v1alpha1_Match := v1alpha1_Match E; range_order := range_order E;
     scheme_OwnerReference := scheme_OwnerReference E;
     client_Create := client_Create E;
     getReadyCond := getReadyCond E; getSyncCond := getSyncCond E;
     ComponentRepositoryLabel := ComponentRepositoryLabel E;
     DisplayNameAnnotationKey := DisplayNameAnnotationKey E |}.

Definition with_RepoUpdate (e : option error.t) (E : Env unit Cond) : Env unit Cond :=
  {| clock := clock E; pkg_Start := pkg_Start E;
     helm_RepoAdd := helm_RepoAdd E;
     helm_RepoRemove := helm_RepoRemove E; helm_RepoUpdate := λ _ _, e;
     ctrl_GetConfig := ctrl_GetConfig E;
     helm_GetOCIRepoCharts := helm_GetOCIRepoCharts E;
     utils_GetOCIEntryName := utils_GetOCIEntryName E;
     v1alpha1_Match := v1alpha1_Match E; range_order := range_order E;
     scheme_OwnerReference := scheme_OwnerReference E;
     client_Create := client_Create E;
     getReadyCond := getReadyCond E; getSyncCond := getSyncCond E;
     ComponentRepositoryLabel := ComponentRepositoryLabel E;
     DisplayNameAnnotationKey := DisplayNameAnnotationKey E |}.

Definition with_Create (e : option error.t) (E : Env unit Cond) : Env unit Cond :=
  {| clock := clock E; pkg_Start := pkg_Start E;
     helm_RepoAdd := helm_RepoAdd E;
     helm_RepoRemove := helm_RepoRemove E; helm_RepoUpdate := helm_RepoUpdate E;
     ctrl_GetConfig := ctrl_GetConfig E;
     helm_GetOCIRepoCharts := helm_GetOCIRepoCharts E;
     utils_GetOCIEntryName := utils_GetOCIEntryName E;
     v1alpha1_Match := v1alpha1_Match E; range_order := range_order E;
     scheme_OwnerReference := scheme_OwnerReference E;
     client_Create := λ _, e;
     getReadyCond := getReadyCond E; getSyncCond := getSyncCond E;
     ComponentRepositoryLabel := ComponentRepositoryLabel E;
     DisplayNameAnnotationKey := DisplayNameAnnotationKey E |}.

(** The filter keeps the versions 2 and 0, in that order. *)
Definition kept : Env unit Cond := env (slice.Mk [2%Z; 0%Z]) true.

(** The filter drops the entry. *)
Definition dropped : Env unit Cond := env slice.Nil false.

(** The refresh of the index fails. *)
Definition noRefresh : Env unit Cond := with_RepoUpdate (Some refused) dropped.

(** The registration of the repository fails. *)
Definition noRegister : Env unit Cond := with_RepoAdd (Some refused) dropped.

Definition with_RepoRemove (e : option error.t) (E : Env unit Cond) : Env unit Cond :=
  {| clock := clock E; pkg_Start := pkg_Start E;
     helm_RepoAdd := helm_RepoAdd E;
     helm_RepoRemove := λ _, e; helm_RepoUpdate := helm_RepoUpdate E;
     ctrl_GetConfig := ctrl_GetConfig E;
     helm_GetOCIRepoCharts := helm_GetOCIRepoCharts E;
     utils_GetOCIEntryName := utils_GetOCIEntryName E;
     v1alpha1_Match := v1alpha1_Match E; range_order := range_order E;
     scheme_OwnerReference := scheme_OwnerReference E;
     client_Create := client_Create E;
     getReadyCond := getReadyCond E; getSyncCond := getSyncCond E;
     ComponentRepositoryLabel := ComponentRepositoryLabel E;
     DisplayNameAnnotationKey := DisplayNameAnnotationKey E |}.

Definition with_OwnerReference (r : result metav1.OwnerReference.t)
    (E : Env unit Cond) : Env unit Cond :=
  {| clock := clock E; pkg_Start := pkg_Start E;
     helm_RepoAdd := helm_RepoAdd E;
     helm_RepoRemove := helm_RepoRemove E; helm_RepoUpdate := helm_RepoUpdate E;
     ctrl_GetConfig := ctrl_GetConfig E;
     helm_GetOCIRepoCharts := helm_GetOCIRepoCharts E;
     utils_GetOCIEntryName := utils_GetOCIEntryName E;
     v1alpha1_Match := v1alpha1_Match E; range_order := range_order E;
     scheme_OwnerReference := λ _, r;
     client_Create := client_Create E;
     getReadyCond := getReadyCond E; getSyncCond := getSyncCond E;
     ComponentRepositoryLabel := ComponentRepositoryLabel E;
     DisplayNameAnnotationKey := DisplayNameAnnotationKey E |}.

(** The filter keeps the version 2 and an index past the end. *)
Definition pastTheEnd : Env unit Cond := env (slice.Mk [2%Z; 7%Z]) true.

(** The scheme does not know the repository's kind. *)
Definition noOwner : Env unit Cond :=
  with_OwnerReference (Err (error.mk StatusReasonUnknown "no kind is registered")) kept.

(** Unregistering the repository fails. *)
Definition noRemove : Env unit Cond := with_RepoRemove (Some refused) noRegister.

(** [NamespacedName] as namespace, a dot, name. *)
Definition namespacedName (r : v1alpha1.Repository.t) : string :=
  v1alpha1.Repository.Namespace r +:+ "." +:+ v1alpha1.Repository.Name r.

(** The refresh fails in every other cycle. *)
Definition flaky (n : nat) : Env unit Cond := if Nat.even n then noRefresh else kept.

(** The loop starts after 3, each poll takes 7, the stop comes at 2500. *)
Definition stoppedSchedule : Schedule :=
  {| spawnDelay := 3; pollCost := λ _, 7%Z; stopAt := Some 2500%Z |}.

(** The loop starts at once, each poll takes 7, nobody stops it. *)
Definition schedule : Schedule :=
  {| spawnDelay := 0; pollCost := λ _, 7%Z; stopAt := None |}.

End demo.

(** * Properties *)

Section Properties.

Context {FilterCond Condition : Type}.
Implicit Types (E : Env FilterCond Condition) (c : @OCIWatcher FilterCond).
Implicit Types (w : World Condition) (latest : repo.ChartVersion.t).
Implicit Types (all : slice.t repo.ChartVersion.t).

(** ** Running the pieces of a cycle *)

(** The keyword list the limit [r] leaves. *)
Definition limited (keywords : slice.t string) (r : Z) : slice.t string :=
  if decide (r > 0 ∧ slice.len keywords > r)%Z
  then slice.Mk (take (Z.to_nat r) (slice.elems keywords))
  else keywords.

(** A version record carries the data of the catalog version it was made
    from. *)
Definition carries (src : repo.ChartVersion.t) (v : v1alpha1.ComponentVersion.t) : Prop :=
  v1alpha1.ComponentVersion.Digest v = repo.ChartVersion.Digest src ∧
  v1alpha1.ComponentVersion.Version v = repo.ChartVersion.Version src ∧
  v1alpha1.ComponentVersion.AppVersion v = repo.ChartVersion.AppVersion src ∧
  v1alpha1.ComponentVersion.CreatedAt v = repo.ChartVersion.Created src ∧
  v1alpha1.ComponentVersion.Deprecated v = repo.ChartVersion.Deprecated src ∧
  v1alpha1.ComponentVersion.Annotations v = repo.ChartVersion.Annotations src.

(** The name under which [Poll] looks the chart up. *)
Definition entryNameOf E c : string :=
  utils_GetOCIEntryName E
    (v1alpha1.RepositorySpec.URL (v1alpha1.Repository.Spec (instance c))).

Definition getterOf c (cfg : rest.Config.t) : genericclioptions.ConfigFlags.t :=
  genericclioptions.ConfigFlags.mk (rest.Config.Host cfg) (rest.Config.CAFile cfg)
    (rest.Config.BearerToken cfg) (v1alpha1.Repository.GetNamespace (instance c)).

(** What the three calls before the build answer in this cycle. *)
Definition refreshOf E c : option error.t :=
  helm_RepoUpdate E (repoName c) (duration c `quot` 2)%Z.

Definition fetchOf E c (cfg : rest.Config.t)
  : result (repo.ChartVersion.t * slice.t repo.ChartVersion.t) :=
  helm_GetOCIRepoCharts E (getterOf c cfg)
    (v1alpha1.Repository.GetNamespace (instance c)) (instance c).

Definition matchOf E c all : slice.t Z * bool :=
  v1alpha1_Match E (filterMap c) (v1alpha1.Filter.mk (entryNameOf E c) all).

(** The cycle got as far as the filter: refresh, configuration and fetch
    succeeded, and the fetch answered [latest] and [all]. *)
Definition fetched E c latest all : Prop :=
  refreshOf E c = None ∧
  ∃ cfg, ctrl_GetConfig E = Ok cfg ∧ fetchOf E c cfg = Ok (latest, all).

(** The log line after the create. *)
Definition createLog (e : option error.t) : Event Condition :=
  match e with
  | Some err =>
    if negb (errors.IsAlreadyExists err)
    then LogError err "failed to create component"
    else LogInfo "Successfully created component"
  | None => LogInfo "Successfully created component"
  end.

(** The component once the versions and the keywords are known: the
    assignments of lines 169 and 189-199. *)
Definition assemble E c latest
    (versions : slice.t v1alpha1.ComponentVersion.t) (keywords : slice.t string)
  : v1alpha1.Component.t :=
  let item := skeleton E c (entryNameOf E c) latest in
  let item := v1alpha1.Component.set_Versions versions item in
  let item := v1alpha1.Component.set_Description (repo.ChartVersion.Description latest) item in
  let item := v1alpha1.Component.set_Home (repo.ChartVersion.Home latest) item in
  let item := v1alpha1.Component.set_Icon (repo.ChartVersion.Icon latest) item in
  let item := v1alpha1.Component.set_Keywords keywords item in
  let item := v1alpha1.Component.set_Sources (repo.ChartVersion.Sources latest) item in
  let item :=
    v1alpha1.Component.set_Maintainers
      (appendMaintainers E
         (collectMaintainers (slice.elems (repo.ChartVersion.Maintainers latest)))
         slice.make0)
      item in
  SetOwnerReference E (instance c) item.

(** The events of a cycle up to and including the fetch. *)
Definition prologue E c (cfg : rest.Config.t) : list (Event Condition) :=
  [LogInfo "OCI poll";
   CallRepoUpdate (repoName c) (duration c `quot` 2)%Z;
   CallGetConfig;
   CallGetOCIRepoCharts (getterOf c cfg) (v1alpha1.Repository.GetNamespace (instance c))].

(** The events of a cycle from the create on. *)
Definition epilogue E (item : v1alpha1.Component.t) : list (Event Condition) :=
  [LogInfo "create component";
   CallCreate item;
   createLog (client_Create E item);
   CallUpdateRepository (getReadyCond E (clock E 0)) (getSyncCond E (clock E 0))].

(** The filter's answer stays within the version set: the contract of
    [Match], which returns indices of the versions it was given. *)
Definition inRange all (indices : list Z) : Prop :=
  Forall (λ idx, (0 ≤ idx < slice.len all)%Z) indices.

Definition filterInRange E c all : Prop :=
  (matchOf E c all).2 = true → inRange all (slice.elems (matchOf E c all).1).

(** The version list the filter's answer calls for: nothing when it says
    drop; when it says keep, one record for each index, in the order of the
    indices, carrying the data of the version at that index. *)
Definition selected E c all (versions : slice.t v1alpha1.ComponentVersion.t) : Prop :=
  if (matchOf E c all).2
  then ∃ vs, versions = slice.Mk vs ∧
         Forall2 (λ idx v, ∃ src, slice.index all idx = Some src ∧ carries src v)
           (slice.elems (matchOf E c all).1) vs
  else versions = slice.make0.

Definition limitOf c : Z :=
  v1alpha1.RepositorySpec.KeywordLenLimit (v1alpha1.Repository.Spec (instance c)).

(** What [Start] hears back when it registers the repository: the error of
    the preparation, or else the answer of [helm.RepoAdd]. *)
Definition registrationOf E c : option error.t :=
  match pkg_Start E (repoName c) with
  | Err err => Some err
  | Ok entry =>
    helm_RepoAdd E
      (repo.Entry.mk (repoName c)
         (v1alpha1.RepositorySpec.URL (v1alpha1.Repository.Spec (instance c)))
         (repo.Entry.Rest entry))
      (duration c `quot` 2)%Z
  end.

(** The refresh or the fetch of this cycle fails with [err]. *)
Definition transportFailure E c (err : error.t) : Prop :=
  refreshOf E c = Some err ∨
  (refreshOf E c = None ∧ ∃ cfg, ctrl_GetConfig E = Ok cfg ∧ fetchOf E c cfg = Err err).

(** The cycle stops before the build: the refresh, the configuration or the
    fetch fails. *)
Definition abandoned E c : Prop :=
  is_Some (refreshOf E c) ∨
  (∃ err, ctrl_GetConfig E = Err err) ∨
  (∃ cfg err, ctrl_GetConfig E = Ok cfg ∧ fetchOf E c cfg = Err err).

(** The maintainer record made from a chart's maintainer (lines 162-166). *)
Definition fromChart (m : chart.Maintainer.t) : v1alpha1.Maintainer.t :=
  v1alpha1.Maintainer.mk (chart.Maintainer.Name m) (chart.Maintainer.Email m)
    (chart.Maintainer.URL m).

(** [src] is the first maintainer of its name in [l]. *)
Definition firstOfName (l : list chart.Maintainer.t) (src : chart.Maintainer.t) : Prop :=
  ∃ i, l !! i = Some src ∧
       ∀ j src', j < i → l !! j = Some src' →
                 chart.Maintainer.Name src' ≠ chart.Maintainer.Name src.

(** The calls a trace made to register, to refresh and to unregister the
    repository, with their arguments, and the events that start or stop a
    watcher. *)
Definition registrations (tr : list (Event Condition)) : list (repo.Entry.t * Duration) :=
  omap (λ e, match e with CallRepoAdd entry t => Some (entry, t) | _ => None end) tr.

Definition refreshes (tr : list (Event Condition)) : list (string * Duration) :=
  omap (λ e, match e with CallRepoUpdate n t => Some (n, t) | _ => None end) tr.

Definition removals (tr : list (Event Condition)) : list string :=
  omap (λ e, match e with CallRepoRemove n => Some n | _ => None end) tr.


Definition isLifecycle (e : Event Condition) : bool :=
  match e with
  | CallStart _ | CallRepoAdd _ _ | CallRepoRemove _ | GoUntil _ | CallCancel => true
  | _ => false
  end.


Lemma limitKeywords_run (keywords : slice.t string) (r : Z) w :
  limitKeywords (Condition := Condition) keywords r w = (Returned (limited keywords r), w).
Proof.
  unfold limitKeywords, limited.
  destruct (decide (r > 0 ∧ slice.len keywords > r)%Z) as [[Hr Hlen]|]; [|done].
  unfold slice.upto. rewrite decide_True by lia.
  destruct keywords as [|l]; [|done].
  unfold slice.len in Hlen. simpl in Hlen. lia.
Qed.

Lemma appendVersions_trace E all (indices : list Z) versions w o w' :
  appendVersions E all indices versions w = (o, w') → trace w' = trace w.
Proof.
  revert versions w. induction indices as [|idx indices IH]; intros versions w.
  - intros [= <- <-]. done.
  - simpl. unfold bind at 1. destruct (slice.index all idx) as [src|]; simpl.
    + unfold bind at 1. simpl. intros Hrun. by rewrite (IH _ _ Hrun).
    + by intros [= <- <-].
Qed.

(** With every index within the version set, the loop of lines 172-183
    returns: one record for each index, in the order of the indices, after
    the records it started from; it reads the clock once for each. *)
Lemma appendVersions_run E all (indices : list Z) (l : list v1alpha1.ComponentVersion.t) w :
  Forall (λ idx, is_Some (slice.index all idx)) indices →
  ∃ vs,
    appendVersions E all indices (slice.Mk l) w
    = (Returned (slice.Mk (l ++ vs)), mkWorld (reads w + length indices) (trace w)) ∧
    Forall2 (λ idx v, ∃ src, slice.index all idx = Some src ∧ carries src v) indices vs.
Proof.
  intros Hin. revert l w.
  induction Hin as [|idx indices [src Hsrc] _ IH]; intros l w.
  - exists []. split; [|constructor].
    simpl. rewrite app_nil_r, Nat.add_0_r. by destruct w.
  - simpl. unfold bind at 1. rewrite Hsrc. simpl.
    unfold bind at 1. simpl. unfold slice.append. simpl.
    destruct (IH (l ++ [v1alpha1.ComponentVersion.mk
                          (repo.ChartVersion.Annotations src)
                          (repo.ChartVersion.Version src)
                          (repo.ChartVersion.AppVersion src)
                          (clock E (reads w))
                          (repo.ChartVersion.Created src)
                          (repo.ChartVersion.Digest src)
                          (repo.ChartVersion.Deprecated src)])%list
                 (mkWorld (S (reads w)) (trace w))) as (vs & Hrun & Hvs).
    eexists (_ :: vs). split.
    + rewrite Hrun. simpl. rewrite <- app_assoc. simpl.
      by rewrite Nat.add_succ_r.
    + constructor; [|done]. exists src. by repeat split.
Qed.

(** An index outside the version set panics, and the loop stops there. *)
Lemma appendVersions_panics E all (indices : list Z) versions w :
  Exists (λ idx, slice.index all idx = None) indices →
  ∃ w', appendVersions E all indices versions w = (Panicked, w').
Proof.
  intros Hex. revert versions w.
  induction indices as [|idx indices IH]; intros versions w.
  - by apply Exists_nil in Hex.
  - simpl. unfold bind at 1.
    destruct (slice.index all idx) as [src|] eqn:Hsrc; simpl; [|by eexists].
    unfold bind at 1. simpl. apply IH.
    apply Exists_cons in Hex as [Hex|Hex]; [congruence|done].
Qed.

(** The build, run: the filter is asked, the versions are collected if it
    says keep, and the rest is assignments. *)
Lemma buildComponent_run E c latest all w :
  buildComponent E c (entryNameOf E c) latest all w
  = match
      (if (matchOf E c all).2
       then appendVersions E all (slice.elems (matchOf E c all).1) slice.make0 w
       else (Returned slice.make0, w))
    with
    | (Returned versions, w') =>
      (Returned
         (assemble E c latest versions
            (limited (repo.ChartVersion.Keywords latest)
               (v1alpha1.RepositorySpec.KeywordLenLimit
                  (v1alpha1.Repository.Spec (instance c))))),
       w')
    | (Panicked, w') => (Panicked, w')
    end.
Proof.
  unfold buildComponent, matchOf.
  destruct (v1alpha1_Match E _ _) as [indices keep]. simpl.
  unfold bind at 1.
  destruct keep.
  - destruct (appendVersions _ _ _ _ _) as [[versions|] w']; [|done].
    unfold bind. by rewrite limitKeywords_run.
  - unfold ret at 1. unfold bind. by rewrite limitKeywords_run.
Qed.

(** A cycle, run from the initial world, by cases on what the collaborators
    answer. *)
Lemma Poll_run E c :
  Poll E c init
  = match refreshOf E c with
    | Some err =>
      (Returned tt,
       mkWorld 1 [LogInfo "OCI poll";
                  CallRepoUpdate (repoName c) (duration c `quot` 2)%Z;
                  LogError err "Failed to update repository"])
    | None =>
      match ctrl_GetConfig E with
      | Err err =>
        (Returned tt,
         mkWorld 1 [LogInfo "OCI poll";
                    CallRepoUpdate (repoName c) (duration c `quot` 2)%Z;
                    CallGetConfig;
                    LogError err "Cannot get config"])
      | Ok cfg =>
        match fetchOf E c cfg with
        | Err err =>
          (Returned tt,
           mkWorld 1 (prologue E c cfg ++ [LogError err "Cannot get oci repo charts"]))
        | Ok (latest, all) =>
          match buildComponent E c (entryNameOf E c) latest all
                  (mkWorld 1 (prologue E c cfg)) with
          | (Returned item, w') =>
            (Returned tt, mkWorld (reads w') (trace w' ++ epilogue E item))
          | (Panicked, w') => (Panicked, w')
          end
        end
      end
    end.
Proof.
  unfold Poll, refreshOf, fetchOf, getterOf, entryNameOf.
  unfold bind at 1. simpl. unfold bind at 1. simpl. unfold bind at 1. simpl.
  destruct (helm_RepoUpdate E _ _) as [err|]; [done|].
  unfold bind at 1. simpl.
  destruct (ctrl_GetConfig E) as [cfg|err]; [|done].
  unfold bind at 1. simpl.
  destruct (helm_GetOCIRepoCharts E _ _ _) as [[latest all]|err]; [|done].
  unfold bind at 1.
  destruct (buildComponent _ _ _ _ _ _) as [[item|] w']; [|done].
  unfold bind at 1. simpl. unfold bind at 1. simpl.
  unfold epilogue, createLog.
  destruct (client_Create E item) as [err|]; simpl.
  - destruct (errors.IsAlreadyExists err); unfold bind, logger_Info, logger_Error, emit;
      simpl; rewrite <- !app_assoc; reflexivity.
  - unfold bind, logger_Info, emit; simpl. rewrite <- !app_assoc. reflexivity.
Qed.

Lemma index_inRange all (indices : list Z) :
  inRange all indices → Forall (λ idx, is_Some (slice.index all idx)) indices.
Proof.
  intros Hin. eapply Forall_impl; [exact Hin|].
  intros idx [Hlo Hhi]. unfold slice.index.
  rewrite decide_True by done. apply lookup_lt_is_Some.
  unfold slice.len in Hhi. lia.
Qed.

Lemma created_epilogue E c cfg item :
  created (prologue E c cfg ++ epilogue E item) = [item].
Proof.
  unfold created, prologue, epilogue, createLog. simpl.
  destruct (client_Create E item) as [err|]; [|done].
  by destruct (errors.IsAlreadyExists err).
Qed.

Lemma conditionUpdates_epilogue E c cfg item :
  conditionUpdates (prologue E c cfg ++ epilogue E item)
  = [(getReadyCond E (clock E 0), getSyncCond E (clock E 0))].
Proof.
  unfold conditionUpdates, prologue, epilogue, createLog. simpl.
  destruct (client_Create E item) as [err|]; [|done].
  by destruct (errors.IsAlreadyExists err).
Qed.

(** A cycle whose refresh, configuration and fetch succeed, with a filter
    that answers within range, returns, and its trace is the prologue
    followed by the epilogue for the component assembled from the selected
    versions and the limited keywords. *)
Lemma Poll_fetched E c latest all :
  fetched E c latest all → filterInRange E c all →
  ∃ cfg versions k,
    ctrl_GetConfig E = Ok cfg ∧
    selected E c all versions ∧
    Poll E c init
    = (Returned tt,
       mkWorld k
         (prologue E c cfg
          ++ epilogue E (assemble E c latest versions
                           (limited (repo.ChartVersion.Keywords latest) (limitOf c))))).
Proof.
  intros (Hrefresh & cfg & Hcfg & Hfetch) Hrange.
  exists cfg. rewrite Poll_run, Hrefresh, Hcfg, Hfetch, buildComponent_run.
  unfold filterInRange, selected in *.
  destruct ((matchOf E c all).2).
  - destruct (appendVersions_run E all (slice.elems (matchOf E c all).1) []
                (mkWorld 1 (prologue E c cfg)))
      as (vs & Hrun & Hvs); [by apply index_inRange, Hrange|].
    unfold slice.make0. rewrite Hrun. simpl.
    exists (slice.Mk vs). eexists. split; [done|]. split; [|done]. by exists vs.
  - exists slice.make0. eexists. done.
Qed.

Lemma assemble_Versions E c latest versions keywords :
  v1alpha1.ComponentStatus.Versions
    (v1alpha1.Component.Status (assemble E c latest versions keywords)) = versions.
Proof. unfold assemble, SetOwnerReference. by destruct (scheme_OwnerReference E _). Qed.

Lemma assemble_Keywords E c latest versions keywords :
  v1alpha1.ComponentStatus.Keywords
    (v1alpha1.Component.Status (assemble E c latest versions keywords)) = keywords.
Proof. unfold assemble, SetOwnerReference. by destruct (scheme_OwnerReference E _). Qed.

Lemma assemble_Maintainers E c latest versions keywords :
  v1alpha1.ComponentStatus.Maintainers
    (v1alpha1.Component.Status (assemble E c latest versions keywords))
  = appendMaintainers E
      (collectMaintainers (slice.elems (repo.ChartVersion.Maintainers latest)))
      slice.make0.
Proof. unfold assemble, SetOwnerReference. by destruct (scheme_OwnerReference E _). Qed.

Lemma assemble_Name E c latest versions keywords :
  v1alpha1.ComponentStatus.Name
    (v1alpha1.Component.Status (assemble E c latest versions keywords))
  = entryNameOf E c.
Proof. unfold assemble, SetOwnerReference. by destruct (scheme_OwnerReference E _). Qed.

Lemma assemble_GetName E c latest versions keywords :
  v1alpha1.Component.GetName (assemble E c latest versions keywords)
  = v1alpha1.Repository.GetName (instance c) +:+ "." +:+ entryNameOf E c.
Proof. unfold assemble, SetOwnerReference. by destruct (scheme_OwnerReference E _). Qed.

(** A cycle that stops before the build creates nothing and updates no
    condition. *)
Lemma Poll_abandoned E c :
  abandoned E c →
  (Poll E c init).1 = Returned tt ∧
  created (trace (Poll E c init).2) = [] ∧
  conditionUpdates (trace (Poll E c init).2) = [].
Proof.
  intros Hab. rewrite Poll_run.
  destruct (refreshOf E c) as [err|] eqn:Hrefresh; [done|].
  destruct (ctrl_GetConfig E) as [cfg|err] eqn:Hcfg; [|done].
  destruct (fetchOf E c cfg) as [[latest all]|err] eqn:Hfetch; [|done].
  destruct Hab as [[? ?]|[[err ?]|(cfg' & err & Hcfg' & Hfetch')]]; congruence.
Qed.

(** *** The maintainers *)

(** The map of lines 159-168 holds, under each name, the record made from
    the first maintainer of that name. *)
Lemma collect_lookup_from (l : list chart.Maintainer.t)
    (acc : gmap string v1alpha1.Maintainer.t) (n : string) :
  fold_left
    (λ (maintainers : gmap string v1alpha1.Maintainer.t) (m : chart.Maintainer.t),
       match maintainers !! chart.Maintainer.Name m with
       | Some _ => maintainers
       | None =>
         <[chart.Maintainer.Name m :=
             v1alpha1.Maintainer.mk (chart.Maintainer.Name m)
               (chart.Maintainer.Email m) (chart.Maintainer.URL m)]> maintainers
       end) l acc !! n
  = match acc !! n with
    | Some v => Some v
    | None => (fromChart ∘ snd) <$> list_find (λ m, chart.Maintainer.Name m = n) l
    end.
Proof.
  revert acc. induction l as [|m l IH]; intros acc; simpl.
  - by destruct (acc !! n).
  - rewrite IH. clear IH.
    destruct (acc !! chart.Maintainer.Name m) as [v|] eqn:Hm.
    + destruct (acc !! n) as [v'|] eqn:Hn; [done|].
      rewrite decide_False by congruence.
      by destruct (list_find _ l) as [[i x]|].
    + destruct (decide (chart.Maintainer.Name m = n)) as [<-|Hne].
      * by rewrite lookup_insert_eq, Hm.
      * rewrite lookup_insert_ne by done.
        destruct (acc !! n) as [v'|]; [done|].
        by destruct (list_find _ l) as [[i x]|].
Qed.

Lemma collect_lookup (l : list chart.Maintainer.t) (n : string) :
  collectMaintainers l !! n
  = (fromChart ∘ snd) <$> list_find (λ m, chart.Maintainer.Name m = n) l.
Proof. unfold collectMaintainers. by rewrite collect_lookup_from, lookup_empty. Qed.

Lemma collect_Some (l : list chart.Maintainer.t) (n : string) v :
  collectMaintainers l !! n = Some v →
  v1alpha1.Maintainer.Name v = n ∧ ∃ src, firstOfName l src ∧ v = fromChart src.
Proof.
  rewrite collect_lookup.
  destruct (list_find _ l) as [[i src]|] eqn:Hfind; [|done].
  intros [= <-]. apply list_find_Some in Hfind as (Hi & Hn & Hfirst).
  split; [done|]. exists src. split; [|done].
  exists i. split; [done|]. intros j src' Hj Hsrc'. rewrite Hn. eauto.
Qed.

Lemma collect_covers (l : list chart.Maintainer.t) src :
  src ∈ l → is_Some (collectMaintainers l !! chart.Maintainer.Name src).
Proof.
  intros Hin. rewrite collect_lookup.
  destruct (list_find (λ m, chart.Maintainer.Name m = chart.Maintainer.Name src) l)
    as [[i x]|] eqn:Hfind; [by eexists|].
  apply list_find_None in Hfind. rewrite Forall_forall in Hfind.
  by destruct (Hfind src Hin).
Qed.

(** The loop of lines 195-197 appends the values of the map in the order
    of the visit. *)
Lemma appendMaintainers_run E (m : gmap string v1alpha1.Maintainer.t)
    (l : list v1alpha1.Maintainer.t) :
  appendMaintainers E m (slice.Mk l) = slice.Mk (l ++ (range_order E m).*2).
Proof.
  unfold appendMaintainers. generalize (range_order E m). intros kvs. revert l.
  induction kvs as [|kv kvs IH]; intros l; simpl.
  - by rewrite app_nil_r.
  - unfold slice.append at 2. simpl. rewrite IH. by rewrite <- app_assoc.
Qed.

Lemma maintainers_perm E (l : list chart.Maintainer.t) :
  range_visits_all E →
  slice.elems (appendMaintainers E (collectMaintainers l) slice.make0)
  ≡ₚ (map_to_list (collectMaintainers l)).*2.
Proof.
  intros Hrange. unfold slice.make0. rewrite appendMaintainers_run. simpl.
  by rewrite (Hrange (collectMaintainers l)).
Qed.

Lemma collect_names (l : list chart.Maintainer.t) :
  v1alpha1.Maintainer.Name <$> (map_to_list (collectMaintainers l)).*2
  = (map_to_list (collectMaintainers l)).*1.
Proof.
  rewrite <- list_fmap_compose. apply list_fmap_ext.
  intros i [n v] Hin. apply list_elem_of_lookup_2, elem_of_map_to_list in Hin.
  apply collect_Some in Hin as [Hn _]. exact Hn.
Qed.

(** *** A cycle that reaches the create *)

Lemma last_epilogue E c cfg item :
  last (prologue E c cfg ++ epilogue E item)
  = Some (CallUpdateRepository (getReadyCond E (clock E 0)) (getSyncCond E (clock E 0))).
Proof. unfold epilogue. by rewrite last_app. Qed.

Lemma Poll_creates E c latest all :
  fetched E c latest all → filterInRange E c all →
  ∃ versions,
    selected E c all versions ∧
    (Poll E c init).1 = Returned tt ∧
    created (trace (Poll E c init).2)
    = [assemble E c latest versions
         (limited (repo.ChartVersion.Keywords latest) (limitOf c))].
Proof.
  intros Hfetched Hrange.
  destruct (Poll_fetched E c latest all Hfetched Hrange)
    as (cfg & versions & k & _ & Hsel & ->).
  exists versions. split; [done|]. split; [done|].
  cbn [snd trace]. apply created_epilogue.
Qed.

(** *** [Start] and the loop *)

Lemma Start_run E c :
  Start E c init
  = match pkg_Start E (repoName c) with
    | Err err => (Returned (Some err), mkWorld 0 [CallStart (repoName c)])
    | Ok entry =>
      let entry' :=
        repo.Entry.mk (repoName c)
          (v1alpha1.RepositorySpec.URL (v1alpha1.Repository.Spec (instance c)))
          (repo.Entry.Rest entry) in
      match helm_RepoAdd E entry' (duration c `quot` 2)%Z with
      | Some err =>
        (Returned (Some err),
         mkWorld 0 [CallStart (repoName c);
                    CallRepoAdd entry' (duration c `quot` 2)%Z;
                    LogError err "Failed to add repository"])
      | None =>
        (Returned None,
         mkWorld 0 [CallStart (repoName c);
                    CallRepoAdd entry' (duration c `quot` 2)%Z;
                    GoUntil (duration c)])
      end
    end.
Proof.
  unfold Start. unfold bind at 1. simpl.
  destruct (pkg_Start E (repoName c)) as [entry|err]; [|done].
  unfold bind at 1. simpl.
  by destruct (helm_RepoAdd E _ _) as [err|].
Qed.

(** A failed registration launches nothing. *)
Lemma Start_failed E c err :
  registrationOf E c = Some err →
  (Start E c init).1 = Returned (Some err) ∧
  launched (trace (Start E c init).2) = None ∧
  last (trace (Start E c init).2) ≠ Some (GoUntil (duration c)).
Proof.
  unfold registrationOf. rewrite Start_run.
  destruct (pkg_Start E (repoName c)) as [entry|err'].
  - simpl. intros ->. done.
  - intros [= ->]. done.
Qed.

Lemma Start_succeeded E c :
  registrationOf E c = None →
  (Start E c init).1 = Returned None ∧
  launched (trace (Start E c init).2) = Some (duration c).
Proof.
  unfold registrationOf. rewrite Start_run.
  destruct (pkg_Start E (repoName c)) as [entry|err']; [|done].
  simpl. by intros ->.
Qed.

Lemma BackoffUntil_head fuel (f : nat → Outcome unit * World Condition)
    period sch n t :
  head (BackoffUntil fuel f period sch n t)
  = match fuel with
    | O => None
    | S _ => if stopped sch t then None else Some (t, (f n).2)
    end.
Proof.
  destruct fuel as [|fuel]; [done|]. simpl.
  destruct (stopped sch t); [done|]. by destruct (f n).
Qed.

(** Between two successive calls lie the time the first call takes and one
    full period. *)
Lemma BackoffUntil_spacing fuel (f : nat → Outcome unit * World Condition)
    period sch n t i ti wi tj wj :
  BackoffUntil fuel f period sch n t !! i = Some (ti, wi) →
  BackoffUntil fuel f period sch n t !! S i = Some (tj, wj) →
  tj = (ti + pollCost sch (n + i) + period)%Z.
Proof.
  revert n t i. induction fuel as [|fuel IH]; intros n t i; [done|].
  simpl. destruct (stopped sch t); [done|].
  destruct (f n) as [[[]|] w]; [|by destruct i].
  destruct (stopped sch (t + pollCost sch n + period)) eqn:Hstop; [by destruct i|].
  destruct i as [|i]; simpl.
  - intros [= <- <-] Hnext.
    pose proof (BackoffUntil_head fuel f period sch (S n)
                  (t + pollCost sch n + period)%Z) as Hhead.
    rewrite head_lookup, Hnext in Hhead.
    destruct fuel; [done|]. rewrite Hstop in Hhead.
    injection Hhead as -> _. by rewrite Nat.add_0_r.
  - intros Hi Hj. rewrite (IH _ _ _ Hi Hj). by rewrite Nat.add_succ_r.
Qed.

(** ** The claims *)

(** C1, as amended. After a successful [Start] the loop calls [Poll] the
    moment the background task begins, with no wait before the first call
    (unless the stop signal is already there, and then it never polls); every
    later poll begins exactly one interval [duration] after the poll before
    it returned. *)
Theorem first_poll_at_loop_start (E0 : Env FilterCond Condition) envs c fuel sch t0 :
  registrationOf E0 c = None → 0 < fuel →
  let polls := (lifecycle fuel sch E0 envs c t0).2 in
  head polls
  = (if stopped sch (t0 + spawnDelay sch)
     then None
     else Some ((t0 + spawnDelay sch)%Z, (Poll (envs 0) c init).2)) ∧
  ∀ i ti wi tj wj,
    polls !! i = Some (ti, wi) → polls !! S i = Some (tj, wj) →
    tj = (ti + pollCost sch i + duration c)%Z.
Proof.
  intros Hreg Hfuel. unfold lifecycle.
  destruct (Start_succeeded E0 c Hreg) as [_ Hgo].
  destruct (Start E0 c init) as [r w]. simpl in Hgo. simpl. rewrite Hgo.
  unfold Until. split.
  - rewrite BackoffUntil_head. destruct fuel; [lia|done].
  - intros i ti wi tj wj Hi Hj.
    by rewrite (BackoffUntil_spacing _ _ _ _ _ _ _ _ _ _ _ Hi Hj).
Qed.

(** C2, as amended. A cycle whose refresh, configuration and fetch succeed
    (the filter answering within the version set) returns and ends, whatever
    the create answers, with one update of the repository's conditions, both
    stamped with the first clock reading of the cycle ([clock E 0], taken
    before any call to a collaborator). A cycle whose
    refresh, configuration or fetch fails returns without updating any
    condition. *)
Theorem conditions_updated_after_fetch E c latest all E' c' :
  fetched E c latest all → filterInRange E c all → abandoned E' c' →
  ((Poll E c init).1 = Returned tt ∧
   last (trace (Poll E c init).2)
   = Some (CallUpdateRepository (getReadyCond E (clock E 0))
             (getSyncCond E (clock E 0))) ∧
   conditionUpdates (trace (Poll E c init).2)
   = [(getReadyCond E (clock E 0), getSyncCond E (clock E 0))]) ∧
  ((Poll E' c' init).1 = Returned tt ∧
   conditionUpdates (trace (Poll E' c' init).2) = []).
Proof.
  intros Hfetched Hrange Hab. split.
  - destruct (Poll_fetched E c latest all Hfetched Hrange)
      as (cfg & versions & k & _ & _ & ->).
    cbn [fst snd trace].
    split; [done|]. split; [apply last_epilogue|apply conditionUpdates_epilogue].
  - by destruct (Poll_abandoned E' c' Hab) as (? & _ & ?).
Qed.

(** C3. When the filter says drop ([keep = false]), the cycle still sends
    one component for the entry to the cluster store, and its version list
    is empty. *)
Theorem dropped_entry_still_created E c latest all :
  fetched E c latest all → (matchOf E c all).2 = false →
  ∃ item,
    (Poll E c init).1 = Returned tt ∧
    created (trace (Poll E c init).2) = [item] ∧
    v1alpha1.ComponentStatus.Name (v1alpha1.Component.Status item) = entryNameOf E c ∧
    v1alpha1.Component.GetName item
    = v1alpha1.Repository.GetName (instance c) +:+ "." +:+ entryNameOf E c ∧
    v1alpha1.ComponentStatus.Versions (v1alpha1.Component.Status item) = slice.Mk [].
Proof.
  intros Hfetched Hkeep.
  destruct (Poll_creates E c latest all Hfetched) as (versions & Hsel & Hret & Hcreated).
  { unfold filterInRange. by rewrite Hkeep. }
  unfold selected in Hsel. rewrite Hkeep in Hsel. subst versions.
  eexists. split; [done|]. split; [done|].
  by rewrite assemble_Name, assemble_GetName, assemble_Versions.
Qed.

(** C4. The maintainers of the component sent to the cluster store: no two
    have the same name; each is made, name, email and URL, from the first
    maintainer of its name in the latest version's list; every name of that
    list is there; and from a list of three named a, a, b come exactly two,
    the first a and the b. The order of the list is that of the visit of
    the map. *)
Theorem maintainers_unique_first_wins E c latest all :
  range_visits_all E → fetched E c latest all → filterInRange E c all →
  ∃ item,
    (Poll E c init).1 = Returned tt ∧
    created (trace (Poll E c init).2) = [item] ∧
    let ms := slice.elems
                (v1alpha1.ComponentStatus.Maintainers (v1alpha1.Component.Status item)) in
    let srcs := slice.elems (repo.ChartVersion.Maintainers latest) in
    NoDup (v1alpha1.Maintainer.Name <$> ms) ∧
    (∀ m, m ∈ ms → ∃ src, firstOfName srcs src ∧ m = fromChart src) ∧
    (∀ src, src ∈ srcs →
       ∃ m, m ∈ ms ∧ v1alpha1.Maintainer.Name m = chart.Maintainer.Name src) ∧
    (∀ a1 a2 b,
       srcs = [a1; a2; b] →
       chart.Maintainer.Name a1 = "a" → chart.Maintainer.Name a2 = "a" →
       chart.Maintainer.Name b = "b" →
       ms ≡ₚ [fromChart a1; fromChart b]).
Proof.
  intros Hvisit Hfetched Hrange.
  destruct (Poll_creates E c latest all Hfetched Hrange)
    as (versions & _ & Hret & Hcreated).
  eexists. split; [done|]. split; [done|].
  rewrite assemble_Maintainers. cbn zeta.
  set (srcs := slice.elems (repo.ChartVersion.Maintainers latest)).
  pose proof (maintainers_perm E srcs Hvisit) as Hperm.
  split; [|split; [|split]].
  - rewrite Hperm, collect_names. apply NoDup_fst_map_to_list.
  - intros m Hm. rewrite Hperm in Hm.
    apply list_elem_of_fmap in Hm as ([n v] & -> & Hin).
    apply elem_of_map_to_list, collect_Some in Hin as (_ & src & Hfirst & ->).
    by exists src.
  - intros src Hsrc. destruct (collect_covers srcs src Hsrc) as [v Hv].
    exists v. split.
    + rewrite Hperm. apply list_elem_of_fmap. exists (chart.Maintainer.Name src, v).
      split; [done|]. by apply elem_of_map_to_list.
    + by apply collect_Some in Hv as [? _].
  - intros a1 a2 b Hsrcs Ha1 Ha2 Hb. rewrite Hperm, Hsrcs.
    unfold collectMaintainers. simpl. rewrite lookup_empty, Ha1, Ha2, Hb.
    rewrite lookup_insert_eq.
    rewrite lookup_insert_ne by done. rewrite lookup_empty.
    rewrite map_to_list_insert by (by rewrite lookup_insert_ne).
    rewrite map_to_list_insert by done.
    rewrite map_to_list_empty. unfold fromChart. rewrite Ha1, Hb. simpl.
    apply perm_swap.
Qed.

(** C5. The keywords of the component sent to the cluster store, for a
    limit [k]: with [k > 0] and more than [k] source keywords they are the
    first [k] source keywords, in order, exactly [k] of them; with [k = 0]
    they are the source keywords unchanged; and with [k > 0] there are never
    more than [k]. *)
Theorem keywords_cut_to_limit E c latest all :
  fetched E c latest all → filterInRange E c all →
  ∃ item,
    (Poll E c init).1 = Returned tt ∧
    created (trace (Poll E c init).2) = [item] ∧
    let kw := v1alpha1.ComponentStatus.Keywords (v1alpha1.Component.Status item) in
    let src := repo.ChartVersion.Keywords latest in
    let k := limitOf c in
    ((k > 0)%Z → (slice.len src > k)%Z →
       slice.len kw = k ∧ slice.elems kw = take (Z.to_nat k) (slice.elems src)) ∧
    (k = 0%Z → kw = src) ∧
    ((k > 0)%Z → (slice.len kw ≤ k)%Z).
Proof.
  intros Hfetched Hrange.
  destruct (Poll_creates E c latest all Hfetched Hrange)
    as (versions & _ & Hret & Hcreated).
  eexists. split; [done|]. split; [done|].
  rewrite assemble_Keywords. cbn zeta. unfold limited.
  split; [|split].
  - intros Hk Hlen. rewrite decide_True by done.
    unfold slice.len in *. simpl. split; [|done]. rewrite length_take. lia.
  - intros Hk. rewrite decide_False by lia. done.
  - intros Hk. case_decide as Hcut.
    + unfold slice.len in *. simpl. rewrite length_take. lia.
    + lia.
Qed.

(** C6. When the filter says keep and its indices lie within the version
    set, the versions of the component sent to the cluster store are, one
    for one and in the filter's order, the catalog versions at the indices
    the filter returned, each record carrying that version's digest,
    version string, app version, creation time, deprecation flag and
    annotations. *)
Theorem kept_versions_follow_filter E c latest all :
  fetched E c latest all → (matchOf E c all).2 = true →
  inRange all (slice.elems (matchOf E c all).1) →
  ∃ item vs,
    (Poll E c init).1 = Returned tt ∧
    created (trace (Poll E c init).2) = [item] ∧
    v1alpha1.ComponentStatus.Versions (v1alpha1.Component.Status item) = slice.Mk vs ∧
    Forall2 (λ idx v, ∃ src, slice.index all idx = Some src ∧ carries src v)
      (slice.elems (matchOf E c all).1) vs.
Proof.
  intros Hfetched Hkeep Hin.
  destruct (Poll_creates E c latest all Hfetched) as (versions & Hsel & Hret & Hcreated).
  { by intros _. }
  unfold selected in Hsel. rewrite Hkeep in Hsel. destruct Hsel as (vs & -> & Hvs).
  eexists. exists vs. split; [done|]. split; [done|].
  by rewrite assemble_Versions.
Qed.

(** C7. In the sink step an "already exists" answer of the create is logged
    as the success is, and no error is logged for it; any other error of the
    create is logged as an error; and in every case the cycle then updates
    the repository's conditions, as its last act. *)
Theorem create_error_does_not_stop_update E c latest all :
  fetched E c latest all → filterInRange E c all →
  ∃ cfg item,
    (Poll E c init).1 = Returned tt ∧
    trace (Poll E c init).2
    = (prologue E c cfg
       ++ [LogInfo "create component";
           CallCreate item;
           createLog (client_Create E item);
           CallUpdateRepository (getReadyCond E (clock E 0))
             (getSyncCond E (clock E 0))])%list ∧
    (∀ err, client_Create E item = Some err → errors.IsAlreadyExists err = true →
       createLog (client_Create E item) = createLog None ∧
       createLog (client_Create E item) = LogInfo "Successfully created component") ∧
    (∀ err, client_Create E item = Some err → errors.IsAlreadyExists err = false →
       createLog (client_Create E item) = LogError err "failed to create component").
Proof.
  intros Hfetched Hrange.
  destruct (Poll_fetched E c latest all Hfetched Hrange)
    as (cfg & versions & k & _ & _ & ->).
  exists cfg. eexists. split; [done|]. split; [done|].
  split; intros err -> Herr; unfold createLog; by rewrite Herr.
Qed.

(** C8. If registering the repository fails, [Start] returns that error and
    launches no loop, so no poll is ever made, however long one watches; and
    a cycle whose refresh or fetch fails returns, its last act the log of
    the error, without sending any component to the cluster store. *)
Theorem transport_failure_stops_short (E0 : Env FilterCond Condition) envs c err
    E c' err' :
  registrationOf E0 c = Some err → transportFailure E c' err' →
  (∀ fuel sch t0,
     (lifecycle fuel sch E0 envs c t0).1.1 = Returned (Some err) ∧
     launched (lifecycle fuel sch E0 envs c t0).1.2 = None ∧
     (lifecycle fuel sch E0 envs c t0).2 = []) ∧
  ((Poll E c' init).1 = Returned tt ∧
   (∃ msg, last (trace (Poll E c' init).2) = Some (LogError err' msg)) ∧
   created (trace (Poll E c' init).2) = []).
Proof.
  intros Hreg Hfail. split.
  - intros fuel sch t0. unfold lifecycle.
    destruct (Start_failed E0 c err Hreg) as (Hret & Hgo & _).
    destruct (Start E0 c init) as [r w]. simpl in *. by rewrite Hgo.
  - rewrite Poll_run.
    destruct Hfail as [->|(-> & cfg & -> & ->)]; simpl; eauto.
Qed.

(** C9. A negative keyword limit leaves the keywords as they are, as the
    limit 0 does: the keywords of the component sent to the cluster store are
    the source keywords whenever the limit is not positive. *)
Theorem negative_limit_is_unlimited E c latest all :
  fetched E c latest all → filterInRange E c all → (limitOf c < 0)%Z →
  ∃ item,
    (Poll E c init).1 = Returned tt ∧
    created (trace (Poll E c init).2) = [item] ∧
    v1alpha1.ComponentStatus.Keywords (v1alpha1.Component.Status item)
    = repo.ChartVersion.Keywords latest ∧
    limited (repo.ChartVersion.Keywords latest) (limitOf c)
    = limited (repo.ChartVersion.Keywords latest) 0.
Proof.
  intros Hfetched Hrange Hneg.
  destruct (Poll_creates E c latest all Hfetched Hrange)
    as (versions & _ & Hret & Hcreated).
  eexists. split; [done|]. split; [done|].
  rewrite assemble_Keywords. unfold limited.
  rewrite !decide_False by lia. done.
Qed.

(** C10. The component sent to the cluster store has a version list and a
    maintainer list that are not nil; with no maintainer in the catalog
    entry and a filter that says drop, both are the empty, non-nil list. *)
Theorem lists_never_nil E c latest all :
  range_visits_all E → fetched E c latest all → filterInRange E c all →
  ∃ item,
    (Poll E c init).1 = Returned tt ∧
    created (trace (Poll E c init).2) = [item] ∧
    slice.is_nil (v1alpha1.ComponentStatus.Versions (v1alpha1.Component.Status item))
    = false ∧
    slice.is_nil (v1alpha1.ComponentStatus.Maintainers (v1alpha1.Component.Status item))
    = false ∧
    (slice.elems (repo.ChartVersion.Maintainers latest) = [] →
     (matchOf E c all).2 = false →
     v1alpha1.ComponentStatus.Versions (v1alpha1.Component.Status item) = slice.Mk [] ∧
     v1alpha1.ComponentStatus.Maintainers (v1alpha1.Component.Status item) = slice.Mk []).
Proof.
  intros Hvisit Hfetched Hrange.
  destruct (Poll_creates E c latest all Hfetched Hrange)
    as (versions & Hsel & Hret & Hcreated).
  eexists. split; [done|]. split; [done|].
  rewrite assemble_Versions, assemble_Maintainers.
  unfold slice.make0. rewrite appendMaintainers_run. unfold selected in Hsel.
  split; [|split; [done|]].
  - destruct ((matchOf E c all).2); [by destruct Hsel as (vs & -> & _)|by subst].
  - intros Hnone Hkeep. rewrite Hkeep in Hsel. subst versions. split; [done|].
    rewrite Hnone. unfold collectMaintainers. simpl.
    pose proof (Hvisit ∅) as Hperm. rewrite map_to_list_empty in Hperm.
    apply Permutation_nil_r in Hperm. by rewrite Hperm.
Qed.

(** ** Further properties of the watcher *)

(** *** What a cycle does and does not do *)

Lemma buildComponent_trace E c latest all w o w' :
  buildComponent E c (entryNameOf E c) latest all w = (o, w') → trace w' = trace w.
Proof.
  rewrite buildComponent_run.
  destruct ((matchOf E c all).2).
  - destruct (appendVersions _ _ _ _ _) as [o1 w1] eqn:Hrun.
    apply appendVersions_trace in Hrun.
    destruct o1; intros [= <- <-]; done.
  - intros [= <- <-]. done.
Qed.

Lemma outside_inRange all (indices : list Z) :
  ¬ inRange all indices → Exists (λ idx, slice.index all idx = None) indices.
Proof.
  unfold inRange. intros Hnot. apply not_Forall_Exists in Hnot; [|apply _].
  eapply Exists_impl; [exact Hnot|]. simpl.
  intros idx Hout. unfold slice.index. case_decide as Hlo; [|done].
  apply lookup_ge_None. unfold slice.len in Hout. lia.
Qed.

Lemma buildComponent_panics E c latest all w :
  (matchOf E c all).2 = true → ¬ inRange all (slice.elems (matchOf E c all).1) →
  ∃ k, buildComponent E c (entryNameOf E c) latest all w = (Panicked, mkWorld k (trace w)).
Proof.
  intros Hkeep Hout.
  destruct (buildComponent E c (entryNameOf E c) latest all w) as [o w'] eqn:Hbuild.
  pose proof (buildComponent_trace _ _ _ _ _ _ _ Hbuild) as Htrace.
  rewrite buildComponent_run, Hkeep in Hbuild.
  destruct (appendVersions_panics E all (slice.elems (matchOf E c all).1) slice.make0 w
              (outside_inRange _ _ Hout)) as [w1 Hrun].
  rewrite Hrun in Hbuild. injection Hbuild as <- <-.
  exists (reads w1). destruct w1. simpl in *. by rewrite Htrace.
Qed.

(** X1. An index of the filter outside the version set makes the cycle
    panic at [all[idx]]: refresh, configuration and fetch were called, and
    nothing else; no component is sent to the cluster store and no condition
    is updated. *)
Theorem bad_index_panics_before_create E c latest all :
  fetched E c latest all → (matchOf E c all).2 = true →
  ¬ inRange all (slice.elems (matchOf E c all).1) →
  (Poll E c init).1 = Panicked ∧
  (∃ cfg, ctrl_GetConfig E = Ok cfg ∧ trace (Poll E c init).2 = prologue E c cfg) ∧
  created (trace (Poll E c init).2) = [] ∧
  conditionUpdates (trace (Poll E c init).2) = [].
Proof.
  intros (Hrefresh & cfg & Hcfg & Hfetch) Hkeep Hout.
  rewrite Poll_run, Hrefresh, Hcfg, Hfetch.
  destruct (buildComponent_panics E c latest all (mkWorld 1 (prologue E c cfg))
              Hkeep Hout) as [k ->].
  simpl. split; [done|]. split; [by exists cfg|done].
Qed.


(** X3. A cycle, however it ends: its first act is the log line; it asks
    for the refresh exactly once, under the watcher's name and with half the
    interval (rounded toward zero) as timeout; it sends at most one
    component and makes at most one update of the conditions; and it never
    registers or unregisters the repository, launches a loop or cancels. *)
Theorem poll_calls_once_and_stays_in_cycle E c :
  head (trace (Poll E c init).2) = Some (LogInfo "OCI poll") ∧
  refreshes (trace (Poll E c init).2) = [(repoName c, (duration c `quot` 2)%Z)] ∧
  (length (created (trace (Poll E c init).2)) ≤ 1)%nat ∧
  (length (conditionUpdates (trace (Poll E c init).2)) ≤ 1)%nat ∧
  filter (λ e, isLifecycle e = true) (trace (Poll E c init).2) = [].
Proof.
  rewrite Poll_run.
  destruct (refreshOf E c) as [err|]; [simpl; repeat split; lia|].
  destruct (ctrl_GetConfig E) as [cfg|err]; [|simpl; repeat split; lia].
  destruct (fetchOf E c cfg) as [[latest all]|err]; [|simpl; repeat split; lia].
  destruct (buildComponent _ _ _ _ _ _) as [o w'] eqn:Hbuild.
  apply buildComponent_trace in Hbuild. simpl in Hbuild.
  destruct o as [item|]; cbn [snd trace]; rewrite Hbuild.
  - rewrite created_epilogue, conditionUpdates_epilogue.
    unfold prologue, epilogue, createLog. simpl.
    destruct (client_Create E item) as [err|]; [|repeat split; lia].
    destruct (errors.IsAlreadyExists err); simpl; repeat split; lia.
  - simpl. repeat split; lia.
Qed.

(** *** The component a cycle sends *)

Lemma assemble_ObjectMeta E c latest versions keywords :
  let meta := v1alpha1.Component.ObjectMeta (assemble E c latest versions keywords) in
  metav1.ObjectMeta.Name meta
  = v1alpha1.Repository.GetName (instance c) +:+ "." +:+ entryNameOf E c ∧
  metav1.ObjectMeta.Namespace meta = v1alpha1.Repository.GetNamespace (instance c) ∧
  metav1.ObjectMeta.Labels meta
  = {[ ComponentRepositoryLabel E := v1alpha1.Repository.GetName (instance c) ]} ∧
  metav1.ObjectMeta.OwnerReferences meta
  = match scheme_OwnerReference E (instance c) with
    | Ok ref => slice.Mk [ref]
    | Err _ => slice.Nil
    end.
Proof. unfold assemble, SetOwnerReference. by destruct (scheme_OwnerReference E _). Qed.

Lemma assemble_Status E c latest versions keywords :
  v1alpha1.Component.Status (assemble E c latest versions keywords)
  = v1alpha1.ComponentStatus.mk
      (Some (v1.ObjectReference.mk
               (v1alpha1.Repository.Kind (instance c))
               (v1alpha1.Repository.GetNamespace (instance c))
               (v1alpha1.Repository.GetName (instance c))
               (v1alpha1.Repository.GetUID (instance c))
               (v1alpha1.Repository.APIVersion (instance c))))
      (entryNameOf E c)
      (default "" (repo.ChartVersion.Annotations latest !! DisplayNameAnnotationKey E))
      versions
      (repo.ChartVersion.Description latest)
      (appendMaintainers E
         (collectMaintainers (slice.elems (repo.ChartVersion.Maintainers latest)))
         slice.make0)
      (repo.ChartVersion.Home latest)
      (repo.ChartVersion.Icon latest)
      keywords
      (repo.ChartVersion.Sources latest).
Proof. unfold assemble, SetOwnerReference. by destruct (scheme_OwnerReference E _). Qed.

(** X4. The component a cycle sends is keyed by the repository and the
    entry alone: its name is the repository's name, a dot, and the entry
    name derived from the repository's URL; its namespace is the
    repository's; its one label names the repository; and its status points
    back at the repository (kind, namespace, name, UID, API version).
    Neither the catalog's content nor the filter nor the clock enters the
    key. *)
Theorem component_key_from_repository E c latest all :
  fetched E c latest all → filterInRange E c all →
  ∃ item,
    created (trace (Poll E c init).2) = [item] ∧
    v1alpha1.Component.GetName item
    = v1alpha1.Repository.GetName (instance c) +:+ "."
      +:+ utils_GetOCIEntryName E
            (v1alpha1.RepositorySpec.URL (v1alpha1.Repository.Spec (instance c))) ∧
    v1alpha1.Component.GetNamespace item = v1alpha1.Repository.GetNamespace (instance c) ∧
    metav1.ObjectMeta.Labels (v1alpha1.Component.ObjectMeta item)
    = {[ ComponentRepositoryLabel E := v1alpha1.Repository.GetName (instance c) ]} ∧
    v1alpha1.ComponentStatus.Name (v1alpha1.Component.Status item)
    = utils_GetOCIEntryName E
        (v1alpha1.RepositorySpec.URL (v1alpha1.Repository.Spec (instance c))) ∧
    v1alpha1.ComponentStatus.RepositoryRef (v1alpha1.Component.Status item)
    = Some (v1.ObjectReference.mk
              (v1alpha1.Repository.Kind (instance c))
              (v1alpha1.Repository.Namespace (instance c))
              (v1alpha1.Repository.Name (instance c))
              (v1alpha1.Repository.UID (instance c))
              (v1alpha1.Repository.APIVersion (instance c))).
Proof.
  intros Hfetched Hrange.
  destruct (Poll_creates E c latest all Hfetched Hrange) as (versions & _ & _ & Hcreated).
  eexists. split; [done|].
  destruct (assemble_ObjectMeta E c latest versions
              (limited (repo.ChartVersion.Keywords latest) (limitOf c)))
    as (Hname & Hns & Hlabels & _).
  unfold v1alpha1.Component.GetName, v1alpha1.Component.GetNamespace.
  rewrite assemble_Status. by repeat split.
Qed.

(** X5. The catalog's metadata goes into the component unchanged: the
    description, the home URL, the icon and the source links are those of
    the latest version, and the display name is the latest version's
    annotation under the display-name key, or the empty string when the
    annotation is missing. *)
Theorem component_metadata_from_latest E c latest all :
  fetched E c latest all → filterInRange E c all →
  ∃ item,
    created (trace (Poll E c init).2) = [item] ∧
    let st := v1alpha1.Component.Status item in
    v1alpha1.ComponentStatus.Description st = repo.ChartVersion.Description latest ∧
    v1alpha1.ComponentStatus.Home st = repo.ChartVersion.Home latest ∧
    v1alpha1.ComponentStatus.Icon st = repo.ChartVersion.Icon latest ∧
    v1alpha1.ComponentStatus.Sources st = repo.ChartVersion.Sources latest ∧
    (∀ name,
       repo.ChartVersion.Annotations latest !! DisplayNameAnnotationKey E = Some name →
       v1alpha1.ComponentStatus.DisplayName st = name) ∧
    (repo.ChartVersion.Annotations latest !! DisplayNameAnnotationKey E = None →
     v1alpha1.ComponentStatus.DisplayName st = "").
Proof.
  intros Hfetched Hrange.
  destruct (Poll_creates E c latest all Hfetched Hrange) as (versions & _ & _ & Hcreated).
  eexists. split; [done|]. cbn zeta. rewrite assemble_Status. simpl.
  repeat split; by intros; simplify_option_eq.
Qed.

(** X6. The owner reference is best effort: when the scheme yields none,
    the component is sent all the same, without owner reference; when it
    yields one, the component is sent with exactly that one. *)
Theorem owner_reference_is_best_effort E c latest all :
  fetched E c latest all → filterInRange E c all →
  ∃ item,
    (Poll E c init).1 = Returned tt ∧
    created (trace (Poll E c init).2) = [item] ∧
    (∀ err, scheme_OwnerReference E (instance c) = Err err →
       metav1.ObjectMeta.OwnerReferences (v1alpha1.Component.ObjectMeta item) = slice.Nil) ∧
    (∀ ref, scheme_OwnerReference E (instance c) = Ok ref →
       metav1.ObjectMeta.OwnerReferences (v1alpha1.Component.ObjectMeta item)
       = slice.Mk [ref]).
Proof.
  intros Hfetched Hrange.
  destruct (Poll_creates E c latest all Hfetched Hrange) as (versions & _ & Hret & Hcreated).
  eexists. split; [done|]. split; [done|].
  destruct (assemble_ObjectMeta E c latest versions
              (limited (repo.ChartVersion.Keywords latest) (limitOf c)))
    as (_ & _ & _ & Hown).
  cbn zeta in Hown. rewrite Hown.
  split; intros ? ->; done.
Qed.

(** *** The clock *)

(** The loop of lines 172-183 reads the clock once for each index, and the
    record for the i-th index is stamped with the i-th of these readings. *)
Lemma appendVersions_stamps E all (indices : list Z)
    (l : list v1alpha1.ComponentVersion.t) w vs w' :
  appendVersions E all indices (slice.Mk l) w = (Returned (slice.Mk (l ++ vs)), w') →
  reads w' = reads w + length indices ∧
  length vs = length indices ∧
  ∀ i v, vs !! i = Some v →
         v1alpha1.ComponentVersion.UpdatedAt v = clock E (reads w + i).
Proof.
  revert l w vs. induction indices as [|idx indices IH]; intros l w vs; simpl.
  - intros [= Hvs <-]. apply (f_equal length) in Hvs.
    rewrite length_app in Hvs. destruct vs; [|simpl in Hvs; lia].
    split; [lia|]. split; [done|]. intros i v [=].
  - unfold bind at 1. destruct (slice.index all idx) as [src|]; [|done]. simpl.
    unfold bind at 1. simpl. unfold slice.append. simpl. intros Hrun.
    destruct (appendVersions_run E all indices
                (l ++ [v1alpha1.ComponentVersion.mk
                         (repo.ChartVersion.Annotations src)
                         (repo.ChartVersion.Version src)
                         (repo.ChartVersion.AppVersion src)
                         (clock E (reads w))
                         (repo.ChartVersion.Created src)
                         (repo.ChartVersion.Digest src)
                         (repo.ChartVersion.Deprecated src)])%list
                (mkWorld (S (reads w)) (trace w))) as (vs' & Hrun' & Hvs').
    { clear -Hrun. revert Hrun. generalize (mkWorld (S (reads w)) (trace w)).
      generalize (slice.Mk (l ++ [v1alpha1.ComponentVersion.mk
                         (repo.ChartVersion.Annotations src)
                         (repo.ChartVersion.Version src)
                         (repo.ChartVersion.AppVersion src)
                         (clock E (reads w))
                         (repo.ChartVersion.Created src)
                         (repo.ChartVersion.Digest src)
                         (repo.ChartVersion.Deprecated src)])%list).
      intros acc w0 Hrun. apply Forall_forall. intros bad Hbad.
      destruct (slice.index all bad) as [x|] eqn:Hx; [by eexists|].
      destruct (appendVersions_panics E all indices acc w0) as [w1 Hpanic].
      { apply Exists_exists. by exists bad. }
      congruence. }
    rewrite Hrun' in Hrun. injection Hrun as Hvs <-.
    rewrite <- app_assoc in Hvs. apply app_inv_head in Hvs. subst vs.
    destruct (IH _ _ _ Hrun') as (Hreads & Hlen & Hstamps). simpl in *.
    split; [lia|]. split; [lia|].
    intros [|i] v Hv; simpl in Hv.
    + injection Hv as <-. simpl. by rewrite Nat.add_0_r.
    + rewrite (Hstamps i v Hv). f_equal. lia.
Qed.

(** X7. Each version record is stamped at the time it is made, not with
    the time of the cycle: the cycle reads the clock once at its start (the
    reading that goes into the conditions) and once more for every version
    the filter kept, in order, and the i-th record's updated-at is the
    reading number i + 1. *)
Theorem versions_stamped_as_they_are_made E c latest all :
  fetched E c latest all → (matchOf E c all).2 = true →
  inRange all (slice.elems (matchOf E c all).1) →
  ∃ item vs,
    created (trace (Poll E c init).2) = [item] ∧
    v1alpha1.ComponentStatus.Versions (v1alpha1.Component.Status item) = slice.Mk vs ∧
    length vs = length (slice.elems (matchOf E c all).1) ∧
    (∀ i v, vs !! i = Some v →
            v1alpha1.ComponentVersion.UpdatedAt v = clock E (S i)) ∧
    reads (Poll E c init).2 = S (length vs) ∧
    conditionUpdates (trace (Poll E c init).2)
    = [(getReadyCond E (clock E 0), getSyncCond E (clock E 0))].
Proof.
  intros (Hrefresh & cfg & Hcfg & Hfetch) Hkeep Hin.
  rewrite Poll_run, Hrefresh, Hcfg, Hfetch, buildComponent_run, Hkeep.
  destruct (appendVersions_run E all (slice.elems (matchOf E c all).1) []
              (mkWorld 1 (prologue E c cfg)) (index_inRange _ _ Hin))
    as (vs & Hrun & _).
  destruct (appendVersions_stamps E all _ [] _ vs _ Hrun) as (_ & Hlen & Hstamps).
  unfold slice.make0. rewrite Hrun. cbn [fst snd trace reads].
  eexists. exists vs.
  split; [apply created_epilogue|]. split; [apply assemble_Versions|].
  split; [done|]. split; [done|].
  split; [by rewrite Hlen|apply conditionUpdates_epilogue].
Qed.

(** *** Starting and stopping *)

Lemma Stop_run E c w :
  Stop E c w
  = (Returned tt,
     mkWorld (reads w)
       (trace w
        ++ [LogInfo "Delete Or Update Repository, stop watcher";
            CallRepoRemove (repoName c)]
        ++ match helm_RepoRemove E (repoName c) with
           | Some err => [LogError err "Failed to remove repository"]
           | None => []
           end
        ++ [CallCancel])).
Proof.
  unfold Stop, bind, call, logger_Info, logger_Error, emit, ret. simpl.
  destruct (helm_RepoRemove E (repoName c)) as [err|]; simpl;
    rewrite <- !app_assoc; reflexivity.
Qed.

Lemma Poll_refreshes E c :
  refreshes (trace (Poll E c init).2) = [(repoName c, (duration c `quot` 2)%Z)].
Proof.
  rewrite Poll_run.
  destruct (refreshOf E c) as [err|]; [done|].
  destruct (ctrl_GetConfig E) as [cfg|err]; [|done].
  destruct (fetchOf E c cfg) as [[latest all]|err]; [|done].
  destruct (buildComponent _ _ _ _ _ _) as [o w'] eqn:Hbuild.
  apply buildComponent_trace in Hbuild. simpl in Hbuild.
  destruct o as [item|]; cbn [snd trace]; rewrite Hbuild; [|done].
  unfold prologue, epilogue, createLog. simpl.
  destruct (client_Create E item) as [err|]; [|done].
  by destruct (errors.IsAlreadyExists err).
Qed.



(** X10. A watcher built by [NewOCIWatcher] keeps the repository, the
    interval and the filter rules it was given, and deals with the transport
    layer under a single name, the repository's [NamespacedName()]: that is
    the name it registers, the name it refreshes in every cycle and the name
    it unregisters; and registration and refresh get the same timeout, half
    the interval rounded toward zero. *)
Theorem watcher_uses_one_name (nn : v1alpha1.Repository.t → string)
    (inst : v1alpha1.Repository.t) (d : Z) (fm : gmap string FilterCond) E :
  let c := NewOCIWatcher nn inst d fm in
  instance c = inst ∧ duration c = d ∧ filterMap c = fm ∧
  (∀ entry t, (entry, t) ∈ registrations (trace (Start E c init).2) →
     repo.Entry.Name entry = nn inst ∧
     repo.Entry.URL entry
     = v1alpha1.RepositorySpec.URL (v1alpha1.Repository.Spec inst) ∧
     t = (d `quot` 2)%Z) ∧
  refreshes (trace (Poll E c init).2) = [(nn inst, (d `quot` 2)%Z)] ∧
  removals (trace (Stop E c init).2) = [nn inst].
Proof.
  cbn zeta. split; [done|]. split; [done|]. split; [done|].
  split; [|split].
  - rewrite Start_run. simpl.
    destruct (pkg_Start E (nn inst)) as [entry0|err]; simpl;
      [|by intros ? ? ?%not_elem_of_nil].
    destruct (helm_RepoAdd E _ _) as [err|]; simpl;
      intros entry t Hin; apply list_elem_of_singleton in Hin;
      by injection Hin as -> ->.
  - by rewrite Poll_refreshes.
  - rewrite Stop_run. simpl.
    by destruct (helm_RepoRemove E (nn inst)).
Qed.

(** *** The loop *)

Lemma lifecycle_polls fuel sch (E0 : Env FilterCond Condition) envs c t0 :
  (lifecycle fuel sch E0 envs c t0).2
  = match registrationOf E0 c with
    | None =>
      BackoffUntil fuel (λ n, Poll (envs n) c init) (duration c) sch 0
        (t0 + spawnDelay sch)%Z
    | Some _ => []
    end.
Proof.
  unfold lifecycle.
  destruct (registrationOf E0 c) as [err|] eqn:Hreg.
  - destruct (Start_failed E0 c err Hreg) as (_ & Hgo & _).
    destruct (Start E0 c init) as [r w]. simpl in *. by rewrite Hgo.
  - destruct (Start_succeeded E0 c Hreg) as (_ & Hgo).
    destruct (Start E0 c init) as [r w]. simpl in *. by rewrite Hgo.
Qed.

(** With no stop and no panic the loop goes on for as long as one watches,
    and the i-th call is the i-th call. *)
Lemma BackoffUntil_goes_on fuel (f : nat → Outcome unit * World Condition)
    period sch n t :
  stopAt sch = None → (∀ k, (f k).1 = Returned tt) →
  length (BackoffUntil fuel f period sch n t) = fuel ∧
  ∀ i p, BackoffUntil fuel f period sch n t !! i = Some p → p.2 = (f (n + i)).2.
Proof.
  intros Hstop Hret. revert n t.
  assert (∀ t, stopped sch t = false) as Hnot by (intros t; unfold stopped; by rewrite Hstop).
  induction fuel as [|fuel IH]; intros n t; [done|].
  simpl. rewrite Hnot. specialize (Hret n) as Hn.
  destruct (f n) as [o w] eqn:Hf. simpl in Hn. subst o. rewrite Hnot.
  destruct (IH (S n) (t + pollCost sch n + period)%Z) as [Hlen Hnth].
  split; [simpl; by rewrite Hlen|].
  intros [|i] p; simpl.
  - intros [= <-]. by rewrite Nat.add_0_r, Hf.
  - intros Hp. rewrite (Hnth i p Hp). by rewrite Nat.add_succ_r.
Qed.

(** No call begins at or after the stop. *)
Lemma BackoffUntil_before_stop fuel (f : nat → Outcome unit * World Condition)
    period sch n t s p :
  stopAt sch = Some s → p ∈ BackoffUntil fuel f period sch n t → (p.1 < s)%Z.
Proof.
  intros Hstop. revert n t. induction fuel as [|fuel IH]; intros n t; simpl.
  - by intros ?%not_elem_of_nil.
  - unfold stopped at 1. rewrite Hstop.
    destruct (Z.leb_spec s t) as [|Hlt]; [by intros ?%not_elem_of_nil|].
    destruct (f n) as [[[]|] w].
    + destruct (stopped sch (t + pollCost sch n + period)).
      * intros ->%list_elem_of_singleton. done.
      * intros [->|Hin]%elem_of_cons; [done|]. by eapply IH.
    + intros ->%list_elem_of_singleton. done.
Qed.

(** Once a stop is set the loop is finite: however long one watches, the
    calls but the last fit, one period each, before the stop. *)
Lemma BackoffUntil_bounded fuel (f : nat → Outcome unit * World Condition)
    period sch n t s :
  stopAt sch = Some s → (0 < period)%Z → (∀ k, (0 ≤ pollCost sch k)%Z) →
  (Z.of_nat (length (BackoffUntil fuel f period sch n t)) * period
   ≤ Z.max 0 (s - t) + period - 1)%Z.
Proof.
  intros Hstop Hperiod Hcost. revert n t.
  induction fuel as [|fuel IH]; intros n t; simpl; [lia|].
  unfold stopped at 1. rewrite Hstop.
  destruct (Z.leb_spec s t) as [|Hlt]; [simpl; lia|].
  specialize (Hcost n) as Hn.
  destruct (f n) as [[[]|] w]; [|simpl; lia].
  unfold stopped. rewrite Hstop.
  destruct (Z.leb_spec s (t + pollCost sch n + period)) as [|Hlt']; [simpl; lia|].
  specialize (IH (S n) (t + pollCost sch n + period)%Z).
  rewrite length_cons, Nat2Z.inj_succ, Z.mul_succ_l. lia.
Qed.

(** X11. No failure of a cycle stops the watcher: as long as nobody stops
    the loop and no cycle panics, the loop makes one poll in each of its
    iterations, the i-th against the state of the world at that time,
    whatever errors the earlier cycles met. *)
Theorem failed_cycle_does_not_stop_the_loop (E0 : Env FilterCond Condition)
    envs c fuel sch t0 :
  registrationOf E0 c = None → stopAt sch = None →
  (∀ n, (Poll (envs n) c init).1 = Returned tt) →
  let polls := (lifecycle fuel sch E0 envs c t0).2 in
  length polls = fuel ∧
  ∀ i p, polls !! i = Some p → p.2 = (Poll (envs i) c init).2.
Proof.
  intros Hreg Hstop Hret. cbn zeta. rewrite lifecycle_polls, Hreg.
  apply (BackoffUntil_goes_on fuel (λ n, Poll (envs n) c init)); done.
Qed.

(** X12. Cancellation is obeyed between polls: no poll begins at or after
    the instant of the stop; and a stop that comes before the loop's first
    instruction leaves the watcher with no poll at all. *)
Theorem no_poll_after_stop (E0 : Env FilterCond Condition) envs c fuel sch t0 s :
  stopAt sch = Some s →
  let polls := (lifecycle fuel sch E0 envs c t0).2 in
  (∀ p, p ∈ polls → (p.1 < s)%Z) ∧
  ((s ≤ t0 + spawnDelay sch)%Z → polls = []).
Proof.
  intros Hstop. cbn zeta. rewrite lifecycle_polls.
  destruct (registrationOf E0 c) as [err|].
  - split; [by intros p ?%not_elem_of_nil|done].
  - split.
    + intros p Hp. by eapply BackoffUntil_before_stop.
    + intros Hearly. destruct fuel as [|fuel]; [done|]. simpl.
      unfold stopped. rewrite Hstop.
      by destruct (Z.leb_spec s (t0 + spawnDelay sch)); [|lia].
Qed.

(** X13. After a stop the loop ends, however long one watches: with a
    positive interval [d] and polls that take no negative time, either no
    poll is made or the polls but the last, at [d] apart at the least, all
    fit between the loop's start and the stop. *)
Theorem loop_ends_after_stop (E0 : Env FilterCond Condition) envs c fuel sch t0 s :
  stopAt sch = Some s → (0 < duration c)%Z → (∀ n, (0 ≤ pollCost sch n)%Z) →
  let polls := (lifecycle fuel sch E0 envs c t0).2 in
  polls = [] ∨
  ((Z.of_nat (length polls) - 1) * duration c < s - (t0 + spawnDelay sch))%Z.
Proof.
  intros Hstop Hd Hcost. cbn zeta. rewrite lifecycle_polls.
  destruct (registrationOf E0 c) as [err|]; [by left|].
  pose proof (BackoffUntil_bounded fuel (λ n, Poll (envs n) c init) (duration c) sch 0
                (t0 + spawnDelay sch)%Z s Hstop Hd Hcost) as Hbound.
  destruct (BackoffUntil fuel _ (duration c) sch 0 (t0 + spawnDelay sch)%Z)
    as [|p polls] eqn:Hpolls; [by left|right].
  assert (p.1 < s)%Z as Hp.
  { eapply (BackoffUntil_before_stop fuel (λ n, Poll (envs n) c init)); [done|].
    rewrite Hpolls. left. }
  assert (p.1 = t0 + spawnDelay sch)%Z as Hfirst.
  { pose proof (BackoffUntil_head fuel (λ n, Poll (envs n) c init) (duration c) sch 0
                  (t0 + spawnDelay sch)%Z) as Hhead.
    rewrite Hpolls in Hhead. simpl in Hhead.
    destruct fuel; [done|]. destruct (stopped sch _); [done|].
    by injection Hhead as ->. }
  lia.
Qed.

(** *** Keywords and maintainers *)

(** X14. The keyword limit cannot go wrong: for every limit, positive,
    zero or negative, and every keyword list, nil or not, the slicing never
    panics and touches nothing; what it yields is a prefix of the source
    keywords, nil exactly when the source is nil, and limiting it again
    changes nothing. *)
Theorem keyword_limit_is_safe (keywords : slice.t string) (r : Z) (w : World Condition) :
  ∃ kw,
    limitKeywords keywords r w = (Returned kw, w) ∧
    slice.elems kw `prefix_of` slice.elems keywords ∧
    slice.is_nil kw = slice.is_nil keywords ∧
    limitKeywords kw r w = (Returned kw, w).
Proof.
  exists (limited keywords r). rewrite !limitKeywords_run.
  split; [done|]. unfold limited.
  destruct (decide (r > 0 ∧ slice.len keywords > r)%Z) as [[Hr Hlen]|Hno].
  - split; [apply prefix_take|]. split.
    + destruct keywords; [|done]. unfold slice.len in Hlen. simpl in Hlen. lia.
    + rewrite decide_False; [done|].
      unfold slice.len in *. simpl. rewrite length_take. lia.
  - split; [done|]. split; [done|]. by rewrite decide_False.
Qed.

Lemma fromChart_Name (l : list chart.Maintainer.t) :
  v1alpha1.Maintainer.Name <$> (fromChart <$> l) = chart.Maintainer.Name <$> l.
Proof. rewrite <- list_fmap_compose. by apply list_fmap_ext. Qed.

Lemma firstOfName_elem (l : list chart.Maintainer.t) src : firstOfName l src → src ∈ l.
Proof. intros (i & Hi & _). by eapply list_elem_of_lookup_2. Qed.

(** Among maintainers of pairwise different names each is the first of its
    name. *)
Lemma collect_NoDup (l : list chart.Maintainer.t) src :
  NoDup (chart.Maintainer.Name <$> l) → src ∈ l →
  collectMaintainers l !! chart.Maintainer.Name src = Some (fromChart src).
Proof.
  intros Hnodup Hin. destruct (collect_covers l src Hin) as [v Hv].
  rewrite Hv. f_equal.
  apply collect_Some in Hv as (Hname & src' & (i & Hi & _) & ->). simpl in Hname.
  apply list_elem_of_lookup_1 in Hin as [j Hj].
  assert (i = j) as ->.
  { eapply (NoDup_lookup _ i j _ Hnodup); rewrite list_lookup_fmap.
    - by rewrite Hi.
    - by rewrite Hj, Hname. }
  congruence.
Qed.

(** X15. The maintainers of the component are as many as the distinct
    names among the latest version's maintainers, and bear those names; so
    they are never more than the source's; and when the source has no two
    maintainers of one name, they are the source's maintainers, all of them,
    in the order of the visit of the map. *)
Theorem maintainer_names_are_the_distinct_names E c latest all :
  range_visits_all E → fetched E c latest all → filterInRange E c all →
  ∃ item,
    created (trace (Poll E c init).2) = [item] ∧
    let ms := slice.elems
                (v1alpha1.ComponentStatus.Maintainers (v1alpha1.Component.Status item)) in
    let srcs := slice.elems (repo.ChartVersion.Maintainers latest) in
    v1alpha1.Maintainer.Name <$> ms ≡ₚ remove_dups (chart.Maintainer.Name <$> srcs) ∧
    (length ms ≤ length srcs)%nat ∧
    (NoDup (chart.Maintainer.Name <$> srcs) → ms ≡ₚ fromChart <$> srcs).
Proof.
  intros Hvisit Hfetched Hrange.
  destruct (Poll_creates E c latest all Hfetched Hrange) as (versions & _ & _ & Hcreated).
  eexists. split; [done|]. rewrite assemble_Maintainers. cbn zeta.
  set (srcs := slice.elems (repo.ChartVersion.Maintainers latest)).
  pose proof (maintainers_perm E srcs Hvisit) as Hperm.
  assert (NoDup (v1alpha1.Maintainer.Name
                   <$> slice.elems (appendMaintainers E (collectMaintainers srcs)
                                      slice.make0))) as Hnodup.
  { rewrite Hperm, collect_names. apply NoDup_fst_map_to_list. }
  assert (∀ n, n ∈ v1alpha1.Maintainer.Name
                     <$> slice.elems (appendMaintainers E (collectMaintainers srcs)
                                        slice.make0)
               ↔ n ∈ chart.Maintainer.Name <$> srcs) as Hnames.
  { intros n. rewrite Hperm, collect_names. split.
    - intros ([n' v] & -> & Hin)%list_elem_of_fmap.
      apply elem_of_map_to_list, collect_Some in Hin as (Hn & src & Hfirst & ->).
      simpl in *. apply list_elem_of_fmap. exists src.
      split; [done|by apply firstOfName_elem].
    - intros (src & -> & Hsrc)%list_elem_of_fmap.
      destruct (collect_covers srcs src Hsrc) as [v Hv].
      apply list_elem_of_fmap. exists (chart.Maintainer.Name src, v).
      split; [done|]. by apply elem_of_map_to_list. }
  split; [|split].
  - apply NoDup_Permutation; [done|apply NoDup_remove_dups|].
    intros n. by rewrite elem_of_remove_dups.
  - rewrite <- (length_fmap v1alpha1.Maintainer.Name).
    rewrite <- (length_fmap chart.Maintainer.Name srcs).
    apply submseteq_length, NoDup_submseteq; [done|]. intros n. apply Hnames.
  - intros Hsrcs. apply NoDup_Permutation.
    + by apply NoDup_fmap_1 in Hnodup.
    + apply (NoDup_fmap_1 v1alpha1.Maintainer.Name). by rewrite fromChart_Name.
    + intros m. rewrite Hperm. split.
      * intros ([n v] & -> & Hin)%list_elem_of_fmap.
        apply elem_of_map_to_list, collect_Some in Hin as (_ & src & Hfirst & ->).
        simpl. apply list_elem_of_fmap. exists src. split; [done|].
        by apply firstOfName_elem.
      * intros (src & -> & Hsrc)%list_elem_of_fmap.
        apply list_elem_of_fmap. exists (chart.Maintainer.Name src, fromChart src).
        split; [done|]. by apply elem_of_map_to_list, collect_NoDup.
Qed.

End Properties.

(** * The claims on a concrete repository *)

Lemma demo_fetched indices keep limit :
  fetched (demo.env indices keep) (demo.watcher limit) demo.latest demo.all.
Proof. split; [done|]. eexists. split; reflexivity. Qed.

Lemma demo_inRange : inRange demo.all [2%Z; 0%Z].
Proof. repeat constructor; unfold slice.len; simpl; lia. Qed.

Lemma demo_filterInRange limit : filterInRange demo.kept (demo.watcher limit) demo.all.
Proof. intros _. exact demo_inRange. Qed.

Lemma demo_dropped_filterInRange limit :
  filterInRange demo.dropped (demo.watcher limit) demo.all.
Proof. intros [=]. Qed.

Lemma demo_range_visits_all indices keep : range_visits_all (demo.env indices keep).
Proof. intros m. reflexivity. Qed.

Lemma demo_abandoned : abandoned demo.noRefresh (demo.watcher 0).
Proof. left. by eexists. Qed.

(** C1, the claim as stated, on the demo: [Start] succeeds, the interval is
    1000, and the first poll is made at the instant 0, the very instant
    [Start] returns; so it is not true that no poll is made before one
    interval has passed. *)
Lemma first_poll_before_interval :
  let run := lifecycle 3 demo.schedule demo.dropped (λ _, demo.dropped) (demo.watcher 0) 0 in
  run.1.1 = Returned None ∧
  duration (demo.watcher 0) = 1000%Z ∧
  fst <$> run.2 = [0; 1007; 2014]%Z ∧
  ¬ (∀ p, p ∈ run.2 → (0 + duration (demo.watcher 0) ≤ p.1)%Z).
Proof.
  cbn zeta.
  assert (fst <$> (lifecycle 3 demo.schedule demo.dropped (λ _, demo.dropped)
                     (demo.watcher 0) 0).2 = [0; 1007; 2014]%Z) as Htimes
    by (vm_compute; reflexivity).
  split; [vm_compute; reflexivity|]. split; [reflexivity|]. split; [exact Htimes|].
  intros Hall.
  destruct (lifecycle 3 demo.schedule demo.dropped (λ _, demo.dropped)
              (demo.watcher 0) 0).2 as [|[t w] polls]; [done|].
  injection Htimes as -> _.
  specialize (Hall (0%Z, w) (list_elem_of_here _ _)). simpl in Hall. lia.
Qed.

Lemma first_poll_at_loop_start_witness :
  registrationOf demo.dropped (demo.watcher 0) = None ∧ 0 < 3 ∧
  let polls :=
    (lifecycle 3 demo.schedule demo.dropped (λ _, demo.dropped) (demo.watcher 0) 0).2 in
  head polls
  = (if stopped demo.schedule (0 + spawnDelay demo.schedule)
     then None
     else Some ((0 + spawnDelay demo.schedule)%Z,
                (Poll demo.dropped (demo.watcher 0) init).2)) ∧
  ∀ i ti wi tj wj,
    polls !! i = Some (ti, wi) → polls !! S i = Some (tj, wj) →
    tj = (ti + pollCost demo.schedule i + duration (demo.watcher 0))%Z.
Proof.
  split; [reflexivity|]. split; [lia|].
  apply (first_poll_at_loop_start demo.dropped (λ _, demo.dropped) (demo.watcher 0)
           3 demo.schedule 0); [reflexivity|lia].
Defined.

(** C2, the claim as stated, on the demo: the refresh fails, the cycle
    returns, its last act is the log of the error, and no condition was
    updated. *)
Lemma refresh_failure_skips_update :
  let w := (Poll demo.noRefresh (demo.watcher 0) init).2 in
  refreshOf demo.noRefresh (demo.watcher 0) = Some demo.refused ∧
  last (trace w) = Some (LogError demo.refused "Failed to update repository") ∧
  conditionUpdates (trace w) = [] ∧
  ¬ (∃ readyCond syncCond,
       last (trace w) = Some (CallUpdateRepository readyCond syncCond)).
Proof.
  cbn zeta. split; [reflexivity|].
  assert (last (trace (Poll demo.noRefresh (demo.watcher 0) init).2)
          = Some (LogError demo.refused "Failed to update repository")) as Hlast
    by (vm_compute; reflexivity).
  split; [exact Hlast|]. split; [vm_compute; reflexivity|].
  intros (r & s & Hupd). rewrite Hlast in Hupd. discriminate Hupd.
Qed.

Lemma conditions_updated_after_fetch_witness :
  fetched demo.kept (demo.watcher 3) demo.latest demo.all ∧
  filterInRange demo.kept (demo.watcher 3) demo.all ∧
  abandoned demo.noRefresh (demo.watcher 0) ∧
  ((Poll demo.kept (demo.watcher 3) init).1 = Returned tt ∧
   last (trace (Poll demo.kept (demo.watcher 3) init).2)
   = Some (CallUpdateRepository ("Ready", 5000%Z) ("Synced", 5000%Z)) ∧
   conditionUpdates (trace (Poll demo.kept (demo.watcher 3) init).2)
   = [(("Ready", 5000%Z), ("Synced", 5000%Z))]) ∧
  ((Poll demo.noRefresh (demo.watcher 0) init).1 = Returned tt ∧
   conditionUpdates (trace (Poll demo.noRefresh (demo.watcher 0) init).2) = []).
Proof.
  split; [apply demo_fetched|]. split; [apply demo_filterInRange|].
  split; [apply demo_abandoned|].
  apply (conditions_updated_after_fetch demo.kept (demo.watcher 3) demo.latest demo.all
           demo.noRefresh (demo.watcher 0));
    [apply demo_fetched|apply demo_filterInRange|apply demo_abandoned].
Defined.

Lemma dropped_entry_still_created_witness :
  fetched demo.dropped (demo.watcher 0) demo.latest demo.all ∧
  (matchOf demo.dropped (demo.watcher 0) demo.all).2 = false ∧
  ∃ item,
    (Poll demo.dropped (demo.watcher 0) init).1 = Returned tt ∧
    created (trace (Poll demo.dropped (demo.watcher 0) init).2) = [item] ∧
    v1alpha1.ComponentStatus.Name (v1alpha1.Component.Status item)
    = entryNameOf demo.dropped (demo.watcher 0) ∧
    v1alpha1.Component.GetName item
    = v1alpha1.Repository.GetName (instance (demo.watcher 0)) +:+ "."
      +:+ entryNameOf demo.dropped (demo.watcher 0) ∧
    v1alpha1.ComponentStatus.Versions (v1alpha1.Component.Status item) = slice.Mk [].
Proof.
  split; [apply demo_fetched|]. split; [reflexivity|].
  apply (dropped_entry_still_created demo.dropped (demo.watcher 0) demo.latest demo.all);
    [apply demo_fetched|reflexivity].
Defined.

Lemma maintainers_unique_first_wins_witness :
  range_visits_all demo.kept ∧
  fetched demo.kept (demo.watcher 3) demo.latest demo.all ∧
  filterInRange demo.kept (demo.watcher 3) demo.all ∧
  ∃ item,
    (Poll demo.kept (demo.watcher 3) init).1 = Returned tt ∧
    created (trace (Poll demo.kept (demo.watcher 3) init).2) = [item] ∧
    let ms := slice.elems
                (v1alpha1.ComponentStatus.Maintainers (v1alpha1.Component.Status item)) in
    let srcs := slice.elems (repo.ChartVersion.Maintainers demo.latest) in
    NoDup (v1alpha1.Maintainer.Name <$> ms) ∧
    (∀ m, m ∈ ms → ∃ src, firstOfName srcs src ∧ m = fromChart src) ∧
    (∀ src, src ∈ srcs →
       ∃ m, m ∈ ms ∧ v1alpha1.Maintainer.Name m = chart.Maintainer.Name src) ∧
    (∀ a1 a2 b,
       srcs = [a1; a2; b] →
       chart.Maintainer.Name a1 = "a" → chart.Maintainer.Name a2 = "a" →
       chart.Maintainer.Name b = "b" →
       ms ≡ₚ [fromChart a1; fromChart b]).
Proof.
  split; [apply demo_range_visits_all|].
  split; [apply demo_fetched|]. split; [apply demo_filterInRange|].
  apply (maintainers_unique_first_wins demo.kept (demo.watcher 3) demo.latest demo.all);
    [apply demo_range_visits_all|apply demo_fetched|apply demo_filterInRange].
Defined.

Lemma keywords_cut_to_limit_witness :
  fetched demo.kept (demo.watcher 3) demo.latest demo.all ∧
  filterInRange demo.kept (demo.watcher 3) demo.all ∧
  ∃ item,
    (Poll demo.kept (demo.watcher 3) init).1 = Returned tt ∧
    created (trace (Poll demo.kept (demo.watcher 3) init).2) = [item] ∧
    let kw := v1alpha1.ComponentStatus.Keywords (v1alpha1.Component.Status item) in
    let src := repo.ChartVersion.Keywords demo.latest in
    let k := limitOf (demo.watcher 3) in
    ((k > 0)%Z → (slice.len src > k)%Z →
       slice.len kw = k ∧ slice.elems kw = take (Z.to_nat k) (slice.elems src)) ∧
    (k = 0%Z → kw = src) ∧
    ((k > 0)%Z → (slice.len kw ≤ k)%Z).
Proof.
  split; [apply demo_fetched|]. split; [apply demo_filterInRange|].
  apply (keywords_cut_to_limit demo.kept (demo.watcher 3) demo.latest demo.all);
    [apply demo_fetched|apply demo_filterInRange].
Defined.

Lemma kept_versions_follow_filter_witness :
  fetched demo.kept (demo.watcher 3) demo.latest demo.all ∧
  (matchOf demo.kept (demo.watcher 3) demo.all).2 = true ∧
  inRange demo.all (slice.elems (matchOf demo.kept (demo.watcher 3) demo.all).1) ∧
  ∃ item vs,
    (Poll demo.kept (demo.watcher 3) init).1 = Returned tt ∧
    created (trace (Poll demo.kept (demo.watcher 3) init).2) = [item] ∧
    v1alpha1.ComponentStatus.Versions (v1alpha1.Component.Status item) = slice.Mk vs ∧
    Forall2 (λ idx v, ∃ src, slice.index demo.all idx = Some src ∧ carries src v)
      (slice.elems (matchOf demo.kept (demo.watcher 3) demo.all).1) vs.
Proof.
  split; [apply demo_fetched|]. split; [reflexivity|]. split; [apply demo_inRange|].
  apply (kept_versions_follow_filter demo.kept (demo.watcher 3) demo.latest demo.all);
    [apply demo_fetched|reflexivity|apply demo_inRange].
Defined.

Lemma create_error_does_not_stop_update_witness :
  let E := demo.with_Create (Some demo.forbidden) demo.kept in
  fetched E (demo.watcher 3) demo.latest demo.all ∧
  filterInRange E (demo.watcher 3) demo.all ∧
  ∃ cfg item,
    (Poll E (demo.watcher 3) init).1 = Returned tt ∧
    trace (Poll E (demo.watcher 3) init).2
    = (prologue E (demo.watcher 3) cfg
       ++ [LogInfo "create component";
           CallCreate item;
           createLog (Condition := demo.Cond) (client_Create E item);
           CallUpdateRepository (getReadyCond E (clock E 0))
             (getSyncCond E (clock E 0))])%list ∧
    (∀ err, client_Create E item = Some err → errors.IsAlreadyExists err = true →
       createLog (Condition := demo.Cond) (client_Create E item) = createLog (Condition := demo.Cond) None ∧
       createLog (Condition := demo.Cond) (client_Create E item) = LogInfo "Successfully created component") ∧
    (∀ err, client_Create E item = Some err → errors.IsAlreadyExists err = false →
       createLog (Condition := demo.Cond) (client_Create E item) = LogError err "failed to create component").
Proof.
  cbn zeta.
  assert (fetched (demo.with_Create (Some demo.forbidden) demo.kept) (demo.watcher 3)
            demo.latest demo.all) as Hfetched
    by (split; [reflexivity|eexists; split; reflexivity]).
  assert (filterInRange (demo.with_Create (Some demo.forbidden) demo.kept)
            (demo.watcher 3) demo.all) as Hrange
    by (intros _; exact demo_inRange).
  split; [exact Hfetched|]. split; [exact Hrange|].
  exact (create_error_does_not_stop_update
           (demo.with_Create (Some demo.forbidden) demo.kept) (demo.watcher 3)
           demo.latest demo.all Hfetched Hrange).
Defined.

Lemma transport_failure_stops_short_witness :
  registrationOf demo.noRegister (demo.watcher 0) = Some demo.refused ∧
  transportFailure demo.noRefresh (demo.watcher 0) demo.refused ∧
  (∀ fuel sch t0,
     (lifecycle fuel sch demo.noRegister (λ _, demo.dropped) (demo.watcher 0) t0).1.1
     = Returned (Some demo.refused) ∧
     launched (lifecycle fuel sch demo.noRegister (λ _, demo.dropped) (demo.watcher 0) t0).1.2
     = None ∧
     (lifecycle fuel sch demo.noRegister (λ _, demo.dropped) (demo.watcher 0) t0).2 = []) ∧
  ((Poll demo.noRefresh (demo.watcher 0) init).1 = Returned tt ∧
   (∃ msg, last (trace (Poll demo.noRefresh (demo.watcher 0) init).2)
           = Some (LogError demo.refused msg)) ∧
   created (trace (Poll demo.noRefresh (demo.watcher 0) init).2) = []).
Proof.
  split; [reflexivity|]. split; [left; reflexivity|].
  apply (transport_failure_stops_short demo.noRegister (λ _, demo.dropped)
           (demo.watcher 0) demo.refused demo.noRefresh (demo.watcher 0) demo.refused);
    [reflexivity|left; reflexivity].
Defined.

Lemma negative_limit_is_unlimited_witness :
  fetched demo.kept (demo.watcher (-1)) demo.latest demo.all ∧
  filterInRange demo.kept (demo.watcher (-1)) demo.all ∧
  (limitOf (demo.watcher (-1)) < 0)%Z ∧
  ∃ item,
    (Poll demo.kept (demo.watcher (-1)) init).1 = Returned tt ∧
    created (trace (Poll demo.kept (demo.watcher (-1)) init).2) = [item] ∧
    v1alpha1.ComponentStatus.Keywords (v1alpha1.Component.Status item)
    = repo.ChartVersion.Keywords demo.latest ∧
    limited (repo.ChartVersion.Keywords demo.latest) (limitOf (demo.watcher (-1)))
    = limited (repo.ChartVersion.Keywords demo.latest) 0.
Proof.
  split; [apply demo_fetched|]. split; [apply demo_filterInRange|].
  split; [reflexivity|].
  apply (negative_limit_is_unlimited demo.kept (demo.watcher (-1)) demo.latest demo.all);
    [apply demo_fetched|apply demo_filterInRange|reflexivity].
Defined.

Lemma lists_never_nil_witness :
  range_visits_all demo.dropped ∧
  fetched demo.dropped (demo.watcher 0) demo.latest demo.all ∧
  filterInRange demo.dropped (demo.watcher 0) demo.all ∧
  ∃ item,
    (Poll demo.dropped (demo.watcher 0) init).1 = Returned tt ∧
    created (trace (Poll demo.dropped (demo.watcher 0) init).2) = [item] ∧
    slice.is_nil (v1alpha1.ComponentStatus.Versions (v1alpha1.Component.Status item))
    = false ∧
    slice.is_nil (v1alpha1.ComponentStatus.Maintainers (v1alpha1.Component.Status item))
    = false ∧
    (slice.elems (repo.ChartVersion.Maintainers demo.latest) = [] →
     (matchOf demo.dropped (demo.watcher 0) demo.all).2 = false →
     v1alpha1.ComponentStatus.Versions (v1alpha1.Component.Status item) = slice.Mk [] ∧
     v1alpha1.ComponentStatus.Maintainers (v1alpha1.Component.Status item) = slice.Mk []).
Proof.
  split; [apply demo_range_visits_all|].
  split; [apply demo_fetched|]. split; [apply demo_dropped_filterInRange|].
  apply (lists_never_nil demo.dropped (demo.watcher 0) demo.latest demo.all);
    [apply demo_range_visits_all|apply demo_fetched|apply demo_dropped_filterInRange].
Defined.

(** * The further properties on the concrete repository *)

Lemma demo_pastTheEnd : ¬ inRange demo.all [2%Z; 7%Z].
Proof.
  intros Hin. apply Forall_cons in Hin as [_ Hin]. apply Forall_cons in Hin as [Hin _].
  unfold slice.len in Hin. simpl in Hin. lia.
Qed.

Lemma bad_index_panics_before_create_witness :
  fetched demo.pastTheEnd (demo.watcher 0) demo.latest demo.all ∧
  (matchOf demo.pastTheEnd (demo.watcher 0) demo.all).2 = true ∧
  ¬ inRange demo.all (slice.elems (matchOf demo.pastTheEnd (demo.watcher 0) demo.all).1) ∧
  (Poll demo.pastTheEnd (demo.watcher 0) init).1 = Panicked ∧
  (∃ cfg, ctrl_GetConfig demo.pastTheEnd = Ok cfg ∧
          trace (Poll demo.pastTheEnd (demo.watcher 0) init).2
          = prologue demo.pastTheEnd (demo.watcher 0) cfg) ∧
  created (trace (Poll demo.pastTheEnd (demo.watcher 0) init).2) = [] ∧
  conditionUpdates (trace (Poll demo.pastTheEnd (demo.watcher 0) init).2) = [].
Proof.
  split; [apply demo_fetched|]. split; [reflexivity|]. split; [apply demo_pastTheEnd|].
  apply (bad_index_panics_before_create demo.pastTheEnd (demo.watcher 0)
           demo.latest demo.all);
    [apply demo_fetched|reflexivity|apply demo_pastTheEnd].
Defined.


Lemma component_key_from_repository_witness :
  fetched demo.kept (demo.watcher 3) demo.latest demo.all ∧
  filterInRange demo.kept (demo.watcher 3) demo.all ∧
  ∃ item,
    created (trace (Poll demo.kept (demo.watcher 3) init).2) = [item] ∧
    v1alpha1.Component.GetName item = "charts.nginx" ∧
    v1alpha1.Component.GetNamespace item = "kubebb-system" ∧
    metav1.ObjectMeta.Labels (v1alpha1.Component.ObjectMeta item)
    = {[ "kubebb.component.repository" := "charts" ]} ∧
    v1alpha1.ComponentStatus.Name (v1alpha1.Component.Status item) = "nginx" ∧
    v1alpha1.ComponentStatus.RepositoryRef (v1alpha1.Component.Status item)
    = Some (v1.ObjectReference.mk "Repository" "kubebb-system" "charts" "uid-1"
              "core.kubebb.k8s.com.cn/v1alpha1").
Proof.
  split; [apply demo_fetched|]. split; [apply demo_filterInRange|].
  apply (component_key_from_repository demo.kept (demo.watcher 3) demo.latest demo.all);
    [apply demo_fetched|apply demo_filterInRange].
Defined.

Lemma component_metadata_from_latest_witness :
  fetched demo.kept (demo.watcher 3) demo.latest demo.all ∧
  filterInRange demo.kept (demo.watcher 3) demo.all ∧
  ∃ item,
    created (trace (Poll demo.kept (demo.watcher 3) init).2) = [item] ∧
    let st := v1alpha1.Component.Status item in
    v1alpha1.ComponentStatus.Description st = "a web server" ∧
    v1alpha1.ComponentStatus.Home st = "https://nginx.org" ∧
    v1alpha1.ComponentStatus.Icon st = "icon.png" ∧
    v1alpha1.ComponentStatus.Sources st = slice.Mk ["https://github.com/nginx"] ∧
    (∀ name,
       repo.ChartVersion.Annotations demo.latest
         !! DisplayNameAnnotationKey demo.kept = Some name →
       v1alpha1.ComponentStatus.DisplayName st = name) ∧
    (repo.ChartVersion.Annotations demo.latest
       !! DisplayNameAnnotationKey demo.kept = None →
     v1alpha1.ComponentStatus.DisplayName st = "").
Proof.
  split; [apply demo_fetched|]. split; [apply demo_filterInRange|].
  apply (component_metadata_from_latest demo.kept (demo.watcher 3) demo.latest demo.all);
    [apply demo_fetched|apply demo_filterInRange].
Defined.

Lemma demo_noOwner_fetched :
  fetched demo.noOwner (demo.watcher 3) demo.latest demo.all.
Proof. split; [done|]. eexists. split; reflexivity. Qed.

Lemma demo_noOwner_filterInRange :
  filterInRange demo.noOwner (demo.watcher 3) demo.all.
Proof. intros _. exact demo_inRange. Qed.

Lemma owner_reference_is_best_effort_witness :
  fetched demo.noOwner (demo.watcher 3) demo.latest demo.all ∧
  filterInRange demo.noOwner (demo.watcher 3) demo.all ∧
  ∃ item,
    (Poll demo.noOwner (demo.watcher 3) init).1 = Returned tt ∧
    created (trace (Poll demo.noOwner (demo.watcher 3) init).2) = [item] ∧
    (∀ err, scheme_OwnerReference demo.noOwner (instance (demo.watcher 3)) = Err err →
       metav1.ObjectMeta.OwnerReferences (v1alpha1.Component.ObjectMeta item) = slice.Nil) ∧
    (∀ ref, scheme_OwnerReference demo.noOwner (instance (demo.watcher 3)) = Ok ref →
       metav1.ObjectMeta.OwnerReferences (v1alpha1.Component.ObjectMeta item)
       = slice.Mk [ref]).
Proof.
  split; [apply demo_noOwner_fetched|]. split; [apply demo_noOwner_filterInRange|].
  apply (owner_reference_is_best_effort demo.noOwner (demo.watcher 3)
           demo.latest demo.all);
    [apply demo_noOwner_fetched|apply demo_noOwner_filterInRange].
Defined.

Lemma versions_stamped_as_they_are_made_witness :
  fetched demo.kept (demo.watcher 3) demo.latest demo.all ∧
  (matchOf demo.kept (demo.watcher 3) demo.all).2 = true ∧
  inRange demo.all (slice.elems (matchOf demo.kept (demo.watcher 3) demo.all).1) ∧
  ∃ item vs,
    created (trace (Poll demo.kept (demo.watcher 3) init).2) = [item] ∧
    v1alpha1.ComponentStatus.Versions (v1alpha1.Component.Status item) = slice.Mk vs ∧
    length vs = length (slice.elems (matchOf demo.kept (demo.watcher 3) demo.all).1) ∧
    (∀ i v, vs !! i = Some v →
            v1alpha1.ComponentVersion.UpdatedAt v = clock demo.kept (S i)) ∧
    reads (Poll demo.kept (demo.watcher 3) init).2 = S (length vs) ∧
    conditionUpdates (trace (Poll demo.kept (demo.watcher 3) init).2)
    = [(("Ready", 5000%Z), ("Synced", 5000%Z))].
Proof.
  split; [apply demo_fetched|]. split; [reflexivity|]. split; [apply demo_inRange|].
  apply (versions_stamped_as_they_are_made demo.kept (demo.watcher 3)
           demo.latest demo.all);
    [apply demo_fetched|reflexivity|apply demo_inRange].
Defined.

Lemma demo_flaky_returns n : (Poll (demo.flaky n) (demo.watcher 3) init).1 = Returned tt.
Proof. unfold demo.flaky. destruct (Nat.even n); vm_compute; reflexivity. Qed.

Lemma failed_cycle_does_not_stop_the_loop_witness :
  registrationOf demo.kept (demo.watcher 3) = None ∧
  stopAt demo.schedule = None ∧
  (∀ n, (Poll (demo.flaky n) (demo.watcher 3) init).1 = Returned tt) ∧
  let polls := (lifecycle 4 demo.schedule demo.kept demo.flaky (demo.watcher 3) 0).2 in
  length polls = 4 ∧
  ∀ i p, polls !! i = Some p → p.2 = (Poll (demo.flaky i) (demo.watcher 3) init).2.
Proof.
  split; [reflexivity|]. split; [reflexivity|]. split; [apply demo_flaky_returns|].
  apply (failed_cycle_does_not_stop_the_loop demo.kept demo.flaky (demo.watcher 3) 4
           demo.schedule 0);
    [reflexivity|reflexivity|apply demo_flaky_returns].
Defined.

Lemma no_poll_after_stop_witness :
  stopAt demo.stoppedSchedule = Some 2500%Z ∧
  let polls :=
    (lifecycle 10 demo.stoppedSchedule demo.kept demo.flaky (demo.watcher 3) 0).2 in
  (∀ p, p ∈ polls → (p.1 < 2500)%Z) ∧
  ((2500 ≤ 0 + spawnDelay demo.stoppedSchedule)%Z → polls = []).
Proof.
  split; [reflexivity|].
  apply (no_poll_after_stop demo.kept demo.flaky (demo.watcher 3) 10
           demo.stoppedSchedule 0 2500%Z).
  reflexivity.
Defined.

Lemma loop_ends_after_stop_witness :
  stopAt demo.stoppedSchedule = Some 2500%Z ∧
  (0 < duration (demo.watcher 3))%Z ∧
  (∀ n, (0 ≤ pollCost demo.stoppedSchedule n)%Z) ∧
  let polls :=
    (lifecycle 10 demo.stoppedSchedule demo.kept demo.flaky (demo.watcher 3) 0).2 in
  polls = [] ∨
  ((Z.of_nat (length polls) - 1) * duration (demo.watcher 3)
   < 2500 - (0 + spawnDelay demo.stoppedSchedule))%Z.
Proof.
  split; [reflexivity|]. split; [reflexivity|]. split; [intros n; simpl; lia|].
  apply (loop_ends_after_stop demo.kept demo.flaky (demo.watcher 3) 10
           demo.stoppedSchedule 0 2500%Z);
    [reflexivity|reflexivity|intros n; simpl; lia].
Defined.

(** The same run, computed: started at 3 and stopped at 2500, with polls
    1007 apart, the loop polls three times and ends, although it was given
    ten iterations. *)
Example stopped_loop_polls_three_times :
  fst <$> (lifecycle 10 demo.stoppedSchedule demo.kept demo.flaky (demo.watcher 3) 0).2
  = [3; 1010; 2017]%Z.
Proof. vm_compute. reflexivity. Qed.

Lemma maintainer_names_are_the_distinct_names_witness :
  range_visits_all demo.kept ∧
  fetched demo.kept (demo.watcher 3) demo.latest demo.all ∧
  filterInRange demo.kept (demo.watcher 3) demo.all ∧
  ∃ item,
    created (trace (Poll demo.kept (demo.watcher 3) init).2) = [item] ∧
    let ms := slice.elems
                (v1alpha1.ComponentStatus.Maintainers (v1alpha1.Component.Status item)) in
    let srcs := slice.elems (repo.ChartVersion.Maintainers demo.latest) in
    v1alpha1.Maintainer.Name <$> ms ≡ₚ remove_dups (chart.Maintainer.Name <$> srcs) ∧
    (length ms ≤ length srcs)%nat ∧
    (NoDup (chart.Maintainer.Name <$> srcs) → ms ≡ₚ fromChart <$> srcs).
Proof.
  split; [apply demo_range_visits_all|].
  split; [apply demo_fetched|]. split; [apply demo_filterInRange|].
  apply (maintainer_names_are_the_distinct_names demo.kept (demo.watcher 3)
           demo.latest demo.all);
    [apply demo_range_visits_all|apply demo_fetched|apply demo_filterInRange].
Defined.
